(** * Storage initialization of the installer (pyanaconda/storage/initialization.py)

    A shallow embedding of the module and the properties of its functions.

    The module is sequencing code over collaborators it does not own: the
    Blivet flags and storage model, libblockdev, udev, the D-Bus proxies of
    the Storage service, and the installer's error handler.  The embedding
    keeps

    - the state the module reads and writes (flags, proxies' properties, the
      attributes of the storage model) in a [World];
    - a call log ([trace]): every call the module makes, in program order;
    - the collaborators' behaviour in an [Env]: which call raises (decided
      from the call log, so any deterministic behaviour is covered), what the
      error handler answers, what a hardware scan finds.

    A Python exception leaves the mutations made before it in place, so a
    computation returns its outcome together with the world it reached. *)

From Stdlib Require Import List String ZArith Bool Arith Lia.
Import ListNotations.
Local Open Scope Z_scope.

Set Implicit Arguments.

(** ** Python values *)

(** Truth value of a [str]: the empty string is false. *)
Definition str_truthy (s : string) : bool :=
  match s with
  | EmptyString => false
  | String _ _ => true
  end.

(** Truth value of a [list]: the empty list is false. *)
Definition list_truthy {A : Type} (l : list A) : bool :=
  match l with
  | [] => false
  | _ :: _ => true
  end.

(** [x in l] on a list of strings. *)
Definition str_in (x : string) (l : list string) : bool :=
  existsb (String.eqb x) l.
Arguments str_in : simpl never.

(** Exceptions: [blivet.errors.StorageError] (and its subclasses), which the
    retry loop names in its [except] clause, and every other exception. *)
Inductive exn : Type :=
| StorageError (msg : string)
| OtherException (cls msg : string).

(** [isinstance(e, StorageError)], the test of [except StorageError as e]. *)
Definition is_StorageError (e : exn) : bool :=
  match e with
  | StorageError _ => true
  | OtherException _ _ => false
  end.

(** ** Data model *)

(** [pyanaconda.core.configuration.anaconda.conf], the fields the module reads. *)
Record Conf : Type := {
  target_is_image : bool;
  target_is_directory : bool;
  security_selinux : Z;
  storage_dmraid : bool;
  storage_ibft : bool;
  storage_multipath_friendly_names : bool;
  storage_allow_imperfect_devices : bool
}.

(** [blivet.flags.flags]: the attributes the module assigns, and the others. *)
Record Flags : Type := {
  debug : bool;
  lvm_metadata_backup : bool;
  auto_dev_updates : bool;
  selinux_reset_fcon : bool;
  keep_empty_ext_partitions : bool;
  discard_new : bool;
  selinux : Z;
  dmraid : bool;
  ibft : bool;
  multipath_friendly_names : bool;
  allow_imperfect_devices : bool;
  other_flags : list (string * bool)
}.

(** Process-wide state of the libraries: Blivet's flags, the log lock of
    [blivet.util], udev's blacklist and the plugins libblockdev has loaded. *)
Record Libraries : Type := {
  blivet_flags : Flags;
  program_log_lock : bool;
  device_name_blacklist : list string;
  available_plugin_names : list string
}.

(** The D-Bus objects of the Storage service. *)
Inductive DBusObject : Type :=
| DISK_SELECTION | AUTO_PARTITIONING | DISK_INITIALIZATION | FCOE | ZFCP.

Record DiskSelection : Type := {
  SelectedDisks : list string;
  IgnoredDisks : list string
}.

Record DiskInitialization : Type := {
  InitializationMode : Z;
  DrivesToClear : list string;
  DevicesToClear : list string;
  InitializeLabelsEnabled : bool;
  FormatUnrecognizedEnabled : bool
}.

Record AutoPartitioning : Type := {
  Enabled : bool;
  FilesystemType : string
}.

Record Services : Type := {
  disk_selection : DiskSelection;
  disk_initialization : DiskInitialization;
  auto_partitioning : AutoPartitioning
}.

(** [StorageDiscoveryConfig]: the five attributes [update_storage_config]
    assigns ([clear_part_type] is [None] until then) and the remaining ones. *)
Record StorageDiscoveryConfig : Type := {
  clear_part_type : option Z;
  clear_part_disks : list string;
  clear_part_devices : list string;
  initialize_disks : bool;
  zero_mbr : bool;
  other_config : list (string * string)
}.

Record Disk : Type := { name : string }.

(** The storage model ([InstallerStorage]), as far as the module touches it. *)
Record Storage : Type := {
  config : StorageDiscoveryConfig;
  ignored_disks : list string;
  exclusive_disks : list string;
  disks : list Disk;
  default_fstype : string;
  default_boot_fstype : string
}.

(** The module's own functions that are called from another of its functions. *)
Inductive OwnFunction : Type :=
| fn_load_plugin_s390 | fn_reset_storage | fn_update_storage_config.

(** One entry of the call log. *)
Inductive call : Type :=
| platform_update_from_flags
| blockdev_get_available_plugin_names
| blockdev_reinit
| udev_trigger
| proxy_get (obj : DBusObject) (property : string)
| proxy_SetSelectedDisks (selected : list string)
| proxy_ReloadModule (obj : DBusObject)
| iscsi_startup
| storage_set_default_fstype (newtype : string)
| storage_set_default_boot_fstype (newtype : string)
| storage_shutdown
| storage_reset (self : Storage)
| error_handler_cb (e : exn)
| enter (f : OwnFunction).

Record World : Type := {
  conf : Conf;
  arch_is_s390 : bool;
  libraries : Libraries;
  services : Services;
  storage : Storage;
  trace : list call
}.

(** The collaborators.  [raises] is asked at every call into a collaborator,
    with the call log up to and including that call; [directive] is the value
    [errorHandler.cb] returns; [scan] is the list of disks a reset finds. *)
Record Env : Type := {
  raises : list call -> option exn;
  directive : list call -> exn -> Z;
  scan : list call -> list Disk
}.

(** ** Computations *)

Inductive Outcome (A : Type) : Type :=
| Returned (a : A)
| Raised (e : exn)
| OutOfFuel.
Arguments Raised {A} e.
Arguments OutOfFuel {A}.

Definition M (A : Type) : Type := World -> Outcome A * World.

Definition ret {A : Type} (a : A) : M A := fun w => (Returned a, w).

Definition bind {A B : Type} (m : M A) (f : A -> M B) : M B :=
  fun w =>
    match m w with
    | (Returned a, w') => f a w'
    | (Raised e, w') => (Raised e, w')
    | (OutOfFuel, w') => (OutOfFuel, w')
    end.

Definition raise {A : Type} (e : exn) : M A := fun w => (Raised e, w).

Definition gets {A : Type} (f : World -> A) : M A := fun w => (Returned (f w), w).

Definition modify (f : World -> World) : M unit := fun w => (Returned tt, f w).

Declare Scope py_scope.
Delimit Scope py_scope with py.
Notation "x <- m ;; k" := (bind m (fun x => k))
  (at level 61, m at next level, right associativity) : py_scope.
Notation "m ;; k" := (bind m (fun _ => k))
  (at level 61, right associativity) : py_scope.
Local Open Scope py_scope.

(** Python's [if c: body] with no [else]. *)
Definition when (c : bool) (body : M unit) : M unit :=
  if c then body else ret tt.

(** *** Field updates *)

Definition log (c : call) (w : World) : World :=
  {| conf := conf w; arch_is_s390 := arch_is_s390 w; libraries := libraries w;
     services := services w; storage := storage w; trace := trace w ++ [c] |}.

Definition with_libraries (f : Libraries -> Libraries) (w : World) : World :=
  {| conf := conf w; arch_is_s390 := arch_is_s390 w; libraries := f (libraries w);
     services := services w; storage := storage w; trace := trace w |}.

Definition with_services (f : Services -> Services) (w : World) : World :=
  {| conf := conf w; arch_is_s390 := arch_is_s390 w; libraries := libraries w;
     services := f (services w); storage := storage w; trace := trace w |}.

Definition with_storage (f : Storage -> Storage) (w : World) : World :=
  {| conf := conf w; arch_is_s390 := arch_is_s390 w; libraries := libraries w;
     services := services w; storage := f (storage w); trace := trace w |}.

Definition with_flags (f : Flags -> Flags) : World -> World :=
  with_libraries (fun l =>
    {| blivet_flags := f (blivet_flags l); program_log_lock := program_log_lock l;
       device_name_blacklist := device_name_blacklist l;
       available_plugin_names := available_plugin_names l |}).

Definition with_config (f : StorageDiscoveryConfig -> StorageDiscoveryConfig)
  : World -> World :=
  with_storage (fun s =>
    {| config := f (config s); ignored_disks := ignored_disks s;
       exclusive_disks := exclusive_disks s; disks := disks s;
       default_fstype := default_fstype s;
       default_boot_fstype := default_boot_fstype s |}).

(** The events logged between two worlds of one run. *)
Definition events_since (w w' : World) : list call :=
  skipn (List.length (trace w)) (trace w').

(** How many logged calls satisfy [p]. *)
Definition count (p : call -> bool) (l : list call) : nat :=
  List.length (filter p l).

(** *** Attribute assignments *)

Definition set_program_log_lock (v : bool) (l : Libraries) : Libraries :=
  {| blivet_flags := blivet_flags l; program_log_lock := v;
     device_name_blacklist := device_name_blacklist l;
     available_plugin_names := available_plugin_names l |}.

Definition set_device_name_blacklist (v : list string) (l : Libraries) : Libraries :=
  {| blivet_flags := blivet_flags l; program_log_lock := program_log_lock l;
     device_name_blacklist := v;
     available_plugin_names := available_plugin_names l |}.

Definition set_available_plugin_names (v : list string) (l : Libraries) : Libraries :=
  {| blivet_flags := blivet_flags l; program_log_lock := program_log_lock l;
     device_name_blacklist := device_name_blacklist l;
     available_plugin_names := v |}.

Definition set_debug (v : bool) (f : Flags) : Flags :=
  {| debug := v; lvm_metadata_backup := lvm_metadata_backup f;
     auto_dev_updates := auto_dev_updates f; selinux_reset_fcon := selinux_reset_fcon f;
     keep_empty_ext_partitions := keep_empty_ext_partitions f;
     discard_new := discard_new f; selinux := selinux f; dmraid := dmraid f;
     ibft := ibft f; multipath_friendly_names := multipath_friendly_names f;
     allow_imperfect_devices := allow_imperfect_devices f;
     other_flags := other_flags f |}.

Definition set_lvm_metadata_backup (v : bool) (f : Flags) : Flags :=
  {| debug := debug f; lvm_metadata_backup := v;
     auto_dev_updates := auto_dev_updates f; selinux_reset_fcon := selinux_reset_fcon f;
     keep_empty_ext_partitions := keep_empty_ext_partitions f;
     discard_new := discard_new f; selinux := selinux f; dmraid := dmraid f;
     ibft := ibft f; multipath_friendly_names := multipath_friendly_names f;
     allow_imperfect_devices := allow_imperfect_devices f;
     other_flags := other_flags f |}.

Definition set_auto_dev_updates (v : bool) (f : Flags) : Flags :=
  {| debug := debug f; lvm_metadata_backup := lvm_metadata_backup f;
     auto_dev_updates := v; selinux_reset_fcon := selinux_reset_fcon f;
     keep_empty_ext_partitions := keep_empty_ext_partitions f;
     discard_new := discard_new f; selinux := selinux f; dmraid := dmraid f;
     ibft := ibft f; multipath_friendly_names := multipath_friendly_names f;
     allow_imperfect_devices := allow_imperfect_devices f;
     other_flags := other_flags f |}.

Definition set_selinux_reset_fcon (v : bool) (f : Flags) : Flags :=
  {| debug := debug f; lvm_metadata_backup := lvm_metadata_backup f;
     auto_dev_updates := auto_dev_updates f; selinux_reset_fcon := v;
     keep_empty_ext_partitions := keep_empty_ext_partitions f;
     discard_new := discard_new f; selinux := selinux f; dmraid := dmraid f;
     ibft := ibft f; multipath_friendly_names := multipath_friendly_names f;
     allow_imperfect_devices := allow_imperfect_devices f;
     other_flags := other_flags f |}.

Definition set_keep_empty_ext_partitions (v : bool) (f : Flags) : Flags :=
  {| debug := debug f; lvm_metadata_backup := lvm_metadata_backup f;
     auto_dev_updates := auto_dev_updates f; selinux_reset_fcon := selinux_reset_fcon f;
     keep_empty_ext_partitions := v;
     discard_new := discard_new f; selinux := selinux f; dmraid := dmraid f;
     ibft := ibft f; multipath_friendly_names := multipath_friendly_names f;
     allow_imperfect_devices := allow_imperfect_devices f;
     other_flags := other_flags f |}.

Definition set_discard_new (v : bool) (f : Flags) : Flags :=
  {| debug := debug f; lvm_metadata_backup := lvm_metadata_backup f;
     auto_dev_updates := auto_dev_updates f; selinux_reset_fcon := selinux_reset_fcon f;
     keep_empty_ext_partitions := keep_empty_ext_partitions f;
     discard_new := v; selinux := selinux f; dmraid := dmraid f;
     ibft := ibft f; multipath_friendly_names := multipath_friendly_names f;
     allow_imperfect_devices := allow_imperfect_devices f;
     other_flags := other_flags f |}.

Definition set_selinux (v : Z) (f : Flags) : Flags :=
  {| debug := debug f; lvm_metadata_backup := lvm_metadata_backup f;
     auto_dev_updates := auto_dev_updates f; selinux_reset_fcon := selinux_reset_fcon f;
     keep_empty_ext_partitions := keep_empty_ext_partitions f;
     discard_new := discard_new f; selinux := v; dmraid := dmraid f;
     ibft := ibft f; multipath_friendly_names := multipath_friendly_names f;
     allow_imperfect_devices := allow_imperfect_devices f;
     other_flags := other_flags f |}.

Definition set_dmraid (v : bool) (f : Flags) : Flags :=
  {| debug := debug f; lvm_metadata_backup := lvm_metadata_backup f;
     auto_dev_updates := auto_dev_updates f; selinux_reset_fcon := selinux_reset_fcon f;
     keep_empty_ext_partitions := keep_empty_ext_partitions f;
     discard_new := discard_new f; selinux := selinux f; dmraid := v;
     ibft := ibft f; multipath_friendly_names := multipath_friendly_names f;
     allow_imperfect_devices := allow_imperfect_devices f;
     other_flags := other_flags f |}.

Definition set_ibft (v : bool) (f : Flags) : Flags :=
  {| debug := debug f; lvm_metadata_backup := lvm_metadata_backup f;
     auto_dev_updates := auto_dev_updates f; selinux_reset_fcon := selinux_reset_fcon f;
     keep_empty_ext_partitions := keep_empty_ext_partitions f;
     discard_new := discard_new f; selinux := selinux f; dmraid := dmraid f;
     ibft := v; multipath_friendly_names := multipath_friendly_names f;
     allow_imperfect_devices := allow_imperfect_devices f;
     other_flags := other_flags f |}.

Definition set_multipath_friendly_names (v : bool) (f : Flags) : Flags :=
  {| debug := debug f; lvm_metadata_backup := lvm_metadata_backup f;
     auto_dev_updates := auto_dev_updates f; selinux_reset_fcon := selinux_reset_fcon f;
     keep_empty_ext_partitions := keep_empty_ext_partitions f;
     discard_new := discard_new f; selinux := selinux f; dmraid := dmraid f;
     ibft := ibft f; multipath_friendly_names := v;
     allow_imperfect_devices := allow_imperfect_devices f;
     other_flags := other_flags f |}.

Definition set_allow_imperfect_devices (v : bool) (f : Flags) : Flags :=
  {| debug := debug f; lvm_metadata_backup := lvm_metadata_backup f;
     auto_dev_updates := auto_dev_updates f; selinux_reset_fcon := selinux_reset_fcon f;
     keep_empty_ext_partitions := keep_empty_ext_partitions f;
     discard_new := discard_new f; selinux := selinux f; dmraid := dmraid f;
     ibft := ibft f; multipath_friendly_names := multipath_friendly_names f;
     allow_imperfect_devices := v;
     other_flags := other_flags f |}.

Definition set_SelectedDisks (v : list string) (s : Services) : Services :=
  {| disk_selection := {| SelectedDisks := v;
                          IgnoredDisks := IgnoredDisks (disk_selection s) |};
     disk_initialization := disk_initialization s;
     auto_partitioning := auto_partitioning s |}.

Definition set_clear_part_type (v : option Z) (c : StorageDiscoveryConfig) :=
  {| clear_part_type := v; clear_part_disks := clear_part_disks c;
     clear_part_devices := clear_part_devices c;
     initialize_disks := initialize_disks c; zero_mbr := zero_mbr c;
     other_config := other_config c |}.

Definition set_clear_part_disks (v : list string) (c : StorageDiscoveryConfig) :=
  {| clear_part_type := clear_part_type c; clear_part_disks := v;
     clear_part_devices := clear_part_devices c;
     initialize_disks := initialize_disks c; zero_mbr := zero_mbr c;
     other_config := other_config c |}.

Definition set_clear_part_devices (v : list string) (c : StorageDiscoveryConfig) :=
  {| clear_part_type := clear_part_type c; clear_part_disks := clear_part_disks c;
     clear_part_devices := v;
     initialize_disks := initialize_disks c; zero_mbr := zero_mbr c;
     other_config := other_config c |}.

Definition set_initialize_disks (v : bool) (c : StorageDiscoveryConfig) :=
  {| clear_part_type := clear_part_type c; clear_part_disks := clear_part_disks c;
     clear_part_devices := clear_part_devices c;
     initialize_disks := v; zero_mbr := zero_mbr c;
     other_config := other_config c |}.

Definition set_zero_mbr (v : bool) (c : StorageDiscoveryConfig) :=
  {| clear_part_type := clear_part_type c; clear_part_disks := clear_part_disks c;
     clear_part_devices := clear_part_devices c;
     initialize_disks := initialize_disks c; zero_mbr := v;
     other_config := other_config c |}.

Definition set_ignored_disks (v : list string) (s : Storage) : Storage :=
  {| config := config s; ignored_disks := v; exclusive_disks := exclusive_disks s;
     disks := disks s; default_fstype := default_fstype s;
     default_boot_fstype := default_boot_fstype s |}.

Definition set_exclusive_disks (v : list string) (s : Storage) : Storage :=
  {| config := config s; ignored_disks := ignored_disks s; exclusive_disks := v;
     disks := disks s; default_fstype := default_fstype s;
     default_boot_fstype := default_boot_fstype s |}.

Definition set_disks (v : list Disk) (s : Storage) : Storage :=
  {| config := config s; ignored_disks := ignored_disks s;
     exclusive_disks := exclusive_disks s;
     disks := v; default_fstype := default_fstype s;
     default_boot_fstype := default_boot_fstype s |}.

Definition set_default_fstype (v : string) (s : Storage) : Storage :=
  {| config := config s; ignored_disks := ignored_disks s;
     exclusive_disks := exclusive_disks s;
     disks := disks s; default_fstype := v;
     default_boot_fstype := default_boot_fstype s |}.

Definition set_default_boot_fstype (v : string) (s : Storage) : Storage :=
  {| config := config s; ignored_disks := ignored_disks s;
     exclusive_disks := exclusive_disks s;
     disks := disks s; default_fstype := default_fstype s;
     default_boot_fstype := v |}.

(** ** The module *)

Section Initialization.

Variable env : Env.

(** [pyanaconda.errors.ERROR_RAISE], the directive of the error handler that
    asks for the exception to be re-raised.  The constant is imported; its
    value is left open. *)
Variable ERROR_RAISE : Z.

(** A call into a collaborator: it is logged, then it raises or returns. *)
Definition invoke (c : call) : M unit :=
  fun w =>
    let w' := log c w in
    match raises env (trace w') with
    | Some e => (Raised e, w')
    | None => (Returned tt, w')
    end.

(** Entry into one of the module's own functions. *)
Definition called (f : OwnFunction) : M unit := modify (log (enter f)).

(** Reading a property of [STORAGE.get_proxy(obj)]. *)
Definition get_property {A : Type} (obj : DBusObject) (property : string)
  (value : Services -> A) : M A :=
  invoke (proxy_get obj property) ;;
  gets (fun w => value (services w)).

(** [disk_select_proxy.SetSelectedDisks(selected)]. *)
Definition SetSelectedDisks (selected : list string) : M unit :=
  invoke (proxy_SetSelectedDisks selected) ;;
  modify (with_services (set_SelectedDisks selected)).

(** Modelled from the spec: [InstallerStorage.set_default_fstype] and
    [InstallerStorage.set_default_boot_fstype] are not in the sources at hand;
    they overwrite the model's default and default-boot filesystem types. *)
Definition storage_set_default_fstype_method (newtype : string) : M unit :=
  invoke (storage_set_default_fstype newtype) ;;
  modify (with_storage (set_default_fstype newtype)).

Definition storage_set_default_boot_fstype_method (newtype : string) : M unit :=
  invoke (storage_set_default_boot_fstype newtype) ;;
  modify (with_storage (set_default_boot_fstype newtype)).

(** Modelled from the spec: [InstallerStorage.shutdown] is not in the sources
    at hand; it is a lifecycle call on the model, whose device graph this
    module does not inspect. *)
Definition storage_shutdown_method : M unit := invoke storage_shutdown.

(** Modelled from the spec: [InstallerStorage.reset] is not in the sources at
    hand; it re-scans the hardware and may raise a storage error.  The call is
    logged with the model it is invoked on. *)
Definition storage_reset_method : M unit :=
  fun w =>
    let w' := log (storage_reset (storage w)) w in
    match raises env (trace w') with
    | Some e => (Raised e, w')
    | None => (Returned tt, with_storage (set_disks (scan env (trace w'))) w')
    end.

(** Modelled from the spec: [errorHandler.cb] of [pyanaconda.errors] is not in
    the sources at hand; it receives the error and returns a directive. *)
Definition error_handler_cb_method (e : exn) : M Z :=
  invoke (error_handler_cb e) ;;
  gets (fun w => directive env (trace w) e).

(** [blockdev.reinit([plugin], reload=False)] with the S390 plugin. *)
Definition blockdev_reinit_s390 : M unit :=
  invoke blockdev_reinit ;;
  modify (with_libraries (fun l =>
    set_available_plugin_names (available_plugin_names l ++ ["s390"%string]) l)).

Definition load_plugin_s390 : M unit :=
  called fn_load_plugin_s390 ;;
  (* Don't load the plugin in a dir installation. *)
  is_directory <- gets (fun w => target_is_directory (conf w)) ;;
  if is_directory then ret tt else
  (* Is the plugin loaded? We are done then. *)
  invoke blockdev_get_available_plugin_names ;;
  names <- gets (fun w => available_plugin_names (libraries w)) ;;
  if str_in "s390" names then ret tt else
  (* Otherwise, load the plugin. *)
  blockdev_reinit_s390.

Definition enable_installer_mode : M unit :=
  modify (with_libraries (set_program_log_lock true)) ;;
  modify (with_flags (set_debug true)) ;;
  is_image <- gets (fun w => target_is_image (conf w)) ;;
  when is_image (modify (with_flags (set_lvm_metadata_backup false))) ;;
  (* Set the flags. *)
  modify (with_flags (set_auto_dev_updates true)) ;;
  modify (with_flags (set_selinux_reset_fcon true)) ;;
  modify (with_flags (set_keep_empty_ext_partitions false)) ;;
  modify (with_flags (set_discard_new true)) ;;
  modify (fun w => with_flags (set_selinux (security_selinux (conf w))) w) ;;
  modify (fun w => with_flags (set_dmraid (storage_dmraid (conf w))) w) ;;
  modify (fun w => with_flags (set_ibft (storage_ibft (conf w))) w) ;;
  modify (fun w => with_flags
    (set_multipath_friendly_names (storage_multipath_friendly_names (conf w))) w) ;;
  modify (fun w => with_flags
    (set_allow_imperfect_devices (storage_allow_imperfect_devices (conf w))) w) ;;
  (* Platform class setup depends on flags, re-initialize it. *)
  invoke platform_update_from_flags ;;
  (* Load plugins. *)
  is_s390 <- gets arch_is_s390 ;;
  when is_s390 load_plugin_s390 ;;
  (* Set the blacklist. *)
  modify (with_libraries (set_device_name_blacklist
    ["^mtd"; "^mmcblk.+boot"; "^mmcblk.+rpmb"; "^zram"; "^ndblk"]%string)) ;;
  (* We need this so all the /dev/disk/* stuff is set up. *)
  invoke udev_trigger.

Definition set_storage_defaults_from_kickstart : M unit :=
  fstype <- get_property AUTO_PARTITIONING "FilesystemType"
              (fun s => FilesystemType (auto_partitioning s)) ;;
  enabled <- get_property AUTO_PARTITIONING "Enabled"
              (fun s => Enabled (auto_partitioning s)) ;;
  when (enabled && str_truthy fstype)
    (storage_set_default_fstype_method fstype ;;
     storage_set_default_boot_fstype_method fstype).

Definition update_storage_config : M unit :=
  called fn_update_storage_config ;;
  v <- get_property DISK_INITIALIZATION "InitializationMode"
         (fun s => InitializationMode (disk_initialization s)) ;;
  modify (with_config (set_clear_part_type (Some v))) ;;
  v <- get_property DISK_INITIALIZATION "DrivesToClear"
         (fun s => DrivesToClear (disk_initialization s)) ;;
  modify (with_config (set_clear_part_disks v)) ;;
  v <- get_property DISK_INITIALIZATION "DevicesToClear"
         (fun s => DevicesToClear (disk_initialization s)) ;;
  modify (with_config (set_clear_part_devices v)) ;;
  v <- get_property DISK_INITIALIZATION "InitializeLabelsEnabled"
         (fun s => InitializeLabelsEnabled (disk_initialization s)) ;;
  modify (with_config (set_initialize_disks v)) ;;
  v <- get_property DISK_INITIALIZATION "FormatUnrecognizedEnabled"
         (fun s => FormatUnrecognizedEnabled (disk_initialization s)) ;;
  modify (with_config (set_zero_mbr v)).

Definition reset_storage : M unit :=
  called fn_reset_storage ;;
  (* Update the config. *)
  update_storage_config ;;
  (* Set the ignored and exclusive disks. *)
  v <- get_property DISK_SELECTION "IgnoredDisks"
         (fun s => IgnoredDisks (disk_selection s)) ;;
  modify (with_storage (set_ignored_disks v)) ;;
  v <- get_property DISK_SELECTION "SelectedDisks"
         (fun s => SelectedDisks (disk_selection s)) ;;
  modify (with_storage (set_exclusive_disks v)) ;;
  (* Reload additional modules. *)
  is_image <- gets (fun w => target_is_image (conf w)) ;;
  when (negb is_image)
    (invoke iscsi_startup ;;
     invoke (proxy_ReloadModule FCOE) ;;
     is_s390 <- gets arch_is_s390 ;;
     when is_s390 (invoke (proxy_ReloadModule ZFCP))) ;;
  (* Do the reset. *)
  storage_reset_method.

(** The [while True] loop of [initialize_storage]; [fuel] bounds the number of
    attempts, and the loop is [OutOfFuel] when they are used up. *)
Fixpoint initialize_storage_loop (fuel : nat) : M unit :=
  match fuel with
  | O => fun w => (OutOfFuel, w)
  | S fuel' =>
      fun w =>
        match reset_storage w with
        | (Returned _, w') => (Returned tt, w')                (* else: break *)
        | (Raised e, w') =>
            if is_StorageError e then                          (* except StorageError as e *)
              (d <- error_handler_cb_method e ;;
               if d =? ERROR_RAISE then raise e
               else initialize_storage_loop fuel') w'
            else (Raised e, w')
        | (OutOfFuel, w') => (OutOfFuel, w')
        end
  end.

Definition initialize_storage (fuel : nat) : M unit :=
  storage_shutdown_method ;;
  initialize_storage_loop fuel.

(** The debug message of the function goes to the log file only. *)
Definition select_all_disks_by_default : M (list string) :=
  selected_disks <- get_property DISK_SELECTION "SelectedDisks"
                      (fun s => SelectedDisks (disk_selection s)) ;;
  ignored_disks <- get_property DISK_SELECTION "IgnoredDisks"
                      (fun s => IgnoredDisks (disk_selection s)) ;;
  if negb (list_truthy selected_disks) then
    all_disks <- gets (fun w => disks (storage w)) ;;
    let selected_disks :=
      map name (filter (fun d => negb (str_in (name d) ignored_disks)) all_disks) in
    SetSelectedDisks selected_disks ;;
    ret selected_disks
  else
    ret selected_disks.

End Initialization.

(** ** Reading the call log *)

Definition is_SetSelectedDisks (c : call) : bool :=
  match c with proxy_SetSelectedDisks _ => true | _ => false end.

Definition is_shutdown (c : call) : bool :=
  match c with storage_shutdown => true | _ => false end.

Definition is_storage_reset (c : call) : bool :=
  match c with storage_reset _ => true | _ => false end.

Definition is_reset_storage (c : call) : bool :=
  match c with enter fn_reset_storage => true | _ => false end.

Definition is_error_handler_cb (c : call) : bool :=
  match c with error_handler_cb _ => true | _ => false end.

Definition is_iscsi_startup (c : call) : bool :=
  match c with iscsi_startup => true | _ => false end.

Definition is_ReloadModule (o : DBusObject) (c : call) : bool :=
  match c, o with
  | proxy_ReloadModule FCOE, FCOE => true
  | proxy_ReloadModule ZFCP, ZFCP => true
  | _, _ => false
  end.

(** The names of all discovered disks whose names are not in the ignored
    list, in the order of discovery. *)
Definition unignored_disk_names (ds : list Disk) (ignored : list string)
  : list string :=
  map name
    (filter (fun d => if in_dec string_dec (name d) ignored then false else true) ds).

(** Two worlds that differ at most in the call log. *)
Definition same_state (w w' : World) : Prop :=
  conf w' = conf w /\ arch_is_s390 w' = arch_is_s390 w /\
  libraries w' = libraries w /\ services w' = services w /\
  storage w' = storage w.

(** The flags as the installer wants them: every flag [enable_installer_mode]
    assigns, from the static configuration [c]; [f] gives the flags it leaves
    alone. *)
Definition installer_flags (c : Conf) (f : Flags) : Flags :=
  {| debug := true;
     lvm_metadata_backup := if target_is_image c then false else lvm_metadata_backup f;
     auto_dev_updates := true;
     selinux_reset_fcon := true;
     keep_empty_ext_partitions := false;
     discard_new := true;
     selinux := security_selinux c;
     dmraid := storage_dmraid c;
     ibft := storage_ibft c;
     multipath_friendly_names := storage_multipath_friendly_names c;
     allow_imperfect_devices := storage_allow_imperfect_devices c;
     other_flags := other_flags f |}.

(** The device names udev is told to skip. *)
Definition installer_blacklist : list string :=
  ["^mtd"; "^mmcblk.+boot"; "^mmcblk.+rpmb"; "^zram"; "^ndblk"]%string.

(** The discovery configuration after [update_storage_config]: the five
    attributes come from the disk-initialization service, the others stay. *)
Definition updated_config (s : Services) (c : StorageDiscoveryConfig)
  : StorageDiscoveryConfig :=
  {| clear_part_type := Some (InitializationMode (disk_initialization s));
     clear_part_disks := DrivesToClear (disk_initialization s);
     clear_part_devices := DevicesToClear (disk_initialization s);
     initialize_disks := InitializeLabelsEnabled (disk_initialization s);
     zero_mbr := FormatUnrecognizedEnabled (disk_initialization s);
     other_config := other_config c |}.

(** The storage model as [reset_storage] hands it to the reset primitive. *)
Definition prepared_storage (w : World) : Storage :=
  {| config := updated_config (services w) (config (storage w));
     ignored_disks := IgnoredDisks (disk_selection (services w));
     exclusive_disks := SelectedDisks (disk_selection (services w));
     disks := disks (storage w);
     default_fstype := default_fstype (storage w);
     default_boot_fstype := default_boot_fstype (storage w) |}.

(** The module reloads of one reset. *)
Definition reload_calls (w : World) : list call :=
  if target_is_image (conf w) then []
  else iscsi_startup :: proxy_ReloadModule FCOE ::
       (if arch_is_s390 w then [proxy_ReloadModule ZFCP] else []).

(** The calls of one complete reset, in order. *)
Definition reset_calls (w : World) : list call :=
  [enter fn_reset_storage; enter fn_update_storage_config;
   proxy_get DISK_INITIALIZATION "InitializationMode";
   proxy_get DISK_INITIALIZATION "DrivesToClear";
   proxy_get DISK_INITIALIZATION "DevicesToClear";
   proxy_get DISK_INITIALIZATION "InitializeLabelsEnabled";
   proxy_get DISK_INITIALIZATION "FormatUnrecognizedEnabled";
   proxy_get DISK_SELECTION "IgnoredDisks";
   proxy_get DISK_SELECTION "SelectedDisks"]
  ++ reload_calls w ++ [storage_reset (prepared_storage w)].

(** Collaborators none of whose calls raises. *)
Definition never_raises (env : Env) : Prop := forall t, raises env t = None.

(** ** Sample collaborators and worlds *)

(** Collaborators that never raise; the handler answers 1, no disk is found. *)
Definition quiet : Env :=
  {| raises := fun _ => None; directive := fun _ _ => 1; scan := fun _ => [] |}.

Definition sample_conf (image : bool) : Conf :=
  {| target_is_image := image; target_is_directory := false;
     security_selinux := 1; storage_dmraid := true; storage_ibft := true;
     storage_multipath_friendly_names := true;
     storage_allow_imperfect_devices := false |}.

Definition sample_flags : Flags :=
  {| debug := false; lvm_metadata_backup := true; auto_dev_updates := false;
     selinux_reset_fcon := false; keep_empty_ext_partitions := true;
     discard_new := false; selinux := 0; dmraid := false; ibft := false;
     multipath_friendly_names := false; allow_imperfect_devices := true;
     other_flags := [("gpt"%string, false)] |}.

Definition sample_storage : Storage :=
  {| config := {| clear_part_type := None; clear_part_disks := [];
                  clear_part_devices := []; initialize_disks := false;
                  zero_mbr := false;
                  other_config := [("disk_images"%string, "none"%string)] |};
     ignored_disks := []; exclusive_disks := [];
     disks := [ {| name := "sda" |}; {| name := "sdb" |}; {| name := "sdc" |} ];
     default_fstype := "xfs"; default_boot_fstype := "xfs" |}.

Definition sample_world (image s390 : bool) (selected : list string)
  (enabled : bool) (fstype : string) : World :=
  {| conf := sample_conf image;
     arch_is_s390 := s390;
     libraries := {| blivet_flags := sample_flags; program_log_lock := false;
                     device_name_blacklist := []; available_plugin_names := [] |};
     services :=
       {| disk_selection := {| SelectedDisks := selected;
                               IgnoredDisks := ["sdb"%string] |};
          disk_initialization :=
            {| InitializationMode := 2; DrivesToClear := ["sda"%string];
               DevicesToClear := []; InitializeLabelsEnabled := true;
               FormatUnrecognizedEnabled := true |};
          auto_partitioning := {| Enabled := enabled; FilesystemType := fstype |} |};
     storage := sample_storage;
     trace := [] |}.

(** The last call of a log. *)
Definition last_call (t : list call) : option call :=
  match rev t with
  | [] => None
  | c :: _ => Some c
  end.

(** Collaborators whose reset primitive raises a storage error the first [n]
    times it is called and whose error handler always answers [d]. *)
Definition flaky (n : nat) (d : Z) : Env :=
  {| raises := fun t =>
       match last_call t with
       | Some (storage_reset _) =>
           if (count is_storage_reset t <=? n)%nat
           then Some (StorageError "cannot scan") else None
       | _ => None
       end;
     directive := fun _ _ => d;
     scan := fun _ => [] |}.

(** Collaborators whose disk-selection proxy is not reachable. *)
Definition no_disk_selection : Env :=
  {| raises := fun t =>
       match last_call t with
       | Some (proxy_get DISK_SELECTION _) =>
           Some (OtherException "DBusError" "no reply")
       | _ => None
       end;
     directive := fun _ _ => 1;
     scan := fun _ => [] |}.

(** ** More readings of the call log *)

Definition is_blockdev_reinit (c : call) : bool :=
  match c with blockdev_reinit => true | _ => false end.

(** A call into libblockdev. *)
Definition is_blockdev (c : call) : bool :=
  match c with
  | blockdev_get_available_plugin_names | blockdev_reinit => true
  | _ => false
  end.

Definition is_udev_trigger (c : call) : bool :=
  match c with udev_trigger => true | _ => false end.

(** Whether [load_plugin_s390] has a plugin to load: not in a directory
    installation, and the plugin is not available yet. *)
Definition s390_plugin_needed (w : World) : bool :=
  negb (target_is_directory (conf w))
  && negb (str_in "s390" (available_plugin_names (libraries w))).

(** The reads of [update_storage_config], in order. *)
Definition config_reads : list call :=
  [proxy_get DISK_INITIALIZATION "InitializationMode";
   proxy_get DISK_INITIALIZATION "DrivesToClear";
   proxy_get DISK_INITIALIZATION "DevicesToClear";
   proxy_get DISK_INITIALIZATION "InitializeLabelsEnabled";
   proxy_get DISK_INITIALIZATION "FormatUnrecognizedEnabled"].

(** The discovery configuration when the first [k] of the five attributes
    have been assigned from the disk-initialization service. *)
Definition assigned_prefix (k : nat) (s : Services) (c : StorageDiscoveryConfig)
  : StorageDiscoveryConfig :=
  {| clear_part_type :=
       if (1 <=? k)%nat then Some (InitializationMode (disk_initialization s))
       else clear_part_type c;
     clear_part_disks :=
       if (2 <=? k)%nat then DrivesToClear (disk_initialization s)
       else clear_part_disks c;
     clear_part_devices :=
       if (3 <=? k)%nat then DevicesToClear (disk_initialization s)
       else clear_part_devices c;
     initialize_disks :=
       if (4 <=? k)%nat then InitializeLabelsEnabled (disk_initialization s)
       else initialize_disks c;
     zero_mbr :=
       if (5 <=? k)%nat then FormatUnrecognizedEnabled (disk_initialization s)
       else zero_mbr c;
     other_config := other_config c |}.

(** A storage model with another discovery configuration. *)
Definition with_discovery_config (c : StorageDiscoveryConfig) (s : Storage) : Storage :=
  {| config := c; ignored_disks := ignored_disks s;
     exclusive_disks := exclusive_disks s; disks := disks s;
     default_fstype := default_fstype s;
     default_boot_fstype := default_boot_fstype s |}.

(** Collaborators whose proxies fail on the reads of property [p]. *)
Definition failing_property (p : string) : Env :=
  {| raises := fun t =>
       match last_call t with
       | Some (proxy_get _ q) =>
           if String.eqb q p then Some (OtherException "DBusError" "no reply") else None
       | _ => None
       end;
     directive := fun _ _ => 1;
     scan := fun _ => [] |}.

(** A logged call other than a call of the error handler on an exception that
    is not a storage error. *)
Definition handles_storage_error (c : call) : bool :=
  match c with
  | error_handler_cb e => is_StorageError e
  | _ => true
  end.

(** Collaborators whose reset primitive raises a storage error and whose
    error handler raises in turn. *)
Definition raising_handler : Env :=
  {| raises := fun t =>
       match last_call t with
       | Some (storage_reset _) => Some (StorageError "cannot scan")
       | Some (error_handler_cb _) => Some (OtherException "RuntimeError" "no handler")
       | _ => None
       end;
     directive := fun _ _ => 1;
     scan := fun _ => [] |}.

(** Collaborators of which only the reset primitive may raise. *)
Definition only_reset_raises (env : Env) : Prop :=
  forall t e, raises env t = Some e -> exists s, last_call t = Some (storage_reset s).

(** ** Properties *)

Lemma skipn_length_app (A : Type) (t l : list A) :
  skipn (List.length t) (t ++ l) = l.
Proof. induction t as [|a t IH]; simpl; auto. Qed.

Lemma events_since_app (w w' : World) (l : list call) :
  trace w' = trace w ++ l -> events_since w w' = l.
Proof. unfold events_since. intros ->. apply skipn_length_app. Qed.

Lemma str_in_In (x : string) (l : list string) : str_in x l = true <-> In x l.
Proof.
  unfold str_in. rewrite existsb_exists. split.
  - intros [y [Hy Heq]]. apply String.eqb_eq in Heq. now subst.
  - intros H. exists x. split; [assumption | apply String.eqb_refl].
Qed.

Lemma filter_not_ignored (ds : list Disk) (ignored : list string) :
  map name (filter (fun d => negb (str_in (name d) ignored)) ds)
  = unignored_disk_names ds ignored.
Proof.
  unfold unignored_disk_names. f_equal. apply filter_ext. intros d.
  destruct (in_dec string_dec (name d) ignored) as [Hin | Hout].
  - apply str_in_In in Hin. now rewrite Hin.
  - destruct (str_in (name d) ignored) eqn:E; [|reflexivity].
    apply str_in_In in E. contradiction.
Qed.

Example select_all_disks_by_default_sample :
  let w := sample_world false false [] false EmptyString in
  let r := select_all_disks_by_default quiet w in
  fst r = Returned ["sda"; "sdc"]%string /\
  SelectedDisks (disk_selection (services (snd r))) = ["sda"; "sdc"]%string /\
  events_since w (snd r)
  = [proxy_get DISK_SELECTION "SelectedDisks"; proxy_get DISK_SELECTION "IgnoredDisks";
     proxy_SetSelectedDisks ["sda"; "sdc"]%string].
Proof. repeat split. Qed.

(** Runs a short computation [H : m w = (r, w')] by evaluation, one case per
    raising call. *)
Ltac exec H :=
  cbn in H;
  repeat match type of H with
         | context [raises ?e ?t] => destruct (raises e t) eqn:?; cbn in H
         end.

(** What a run of the auto-selector that returns has done. *)
Lemma select_all_disks_by_default_run (env : Env) (w w' : World) (l : list string) :
  select_all_disks_by_default env w = (Returned l, w') ->
  let sel := SelectedDisks (disk_selection (services w)) in
  let ign := IgnoredDisks (disk_selection (services w)) in
  let reads := [proxy_get DISK_SELECTION "SelectedDisks";
                proxy_get DISK_SELECTION "IgnoredDisks"] in
  (sel = [] /\
   l = map name (filter (fun d => negb (str_in (name d) ign)) (disks (storage w))) /\
   w' = with_services (set_SelectedDisks l)
          (log (proxy_SetSelectedDisks l)
             (log (proxy_get DISK_SELECTION "IgnoredDisks")
                (log (proxy_get DISK_SELECTION "SelectedDisks") w))))
  \/
  (sel <> [] /\ l = sel /\
   w' = log (proxy_get DISK_SELECTION "IgnoredDisks")
          (log (proxy_get DISK_SELECTION "SelectedDisks") w)).
Proof.
  intros H sel ign reads.
  unfold select_all_disks_by_default, get_property, SetSelectedDisks, bind, invoke,
    gets, modify, ret in H.
  exec H; try discriminate.
  fold sel in H. fold ign in H.
  destruct sel as [|d sel'] eqn:Esel; cbn in H.
  - exec H; try discriminate. injection H as <- <-. left. auto.
  - injection H as <- <-. right. repeat split; congruence.
Qed.

(** Reads off the events between two worlds of a run whose log is explicit. *)
Ltac events :=
  repeat match goal with
         | |- context [events_since ?w ?w'] =>
             let H := fresh in
             eassert (H : events_since w w' = _)
               by (apply events_since_app; cbn; rewrite <- ?app_assoc; cbn; reflexivity);
             rewrite H; clear H
         end.

(** C1. The disk auto-selector.  With an empty selection in the service, a
    call that returns has computed the names of all discovered disks that are
    not ignored, has written that list to the service with one
    [SetSelectedDisks] call, and returns it.  With a non-empty selection it
    returns that selection, calls no [SetSelectedDisks] and leaves the service
    and the model as they were; a second call then does the same again. *)
Theorem select_all_disks_by_default_spec (env : Env) (w w' : World) (l : list string) :
  select_all_disks_by_default env w = (Returned l, w') ->
  let sel := SelectedDisks (disk_selection (services w)) in
  let ign := IgnoredDisks (disk_selection (services w)) in
  (sel = [] ->
     l = unignored_disk_names (disks (storage w)) ign /\
     services w' = set_SelectedDisks l (services w) /\
     storage w' = storage w /\
     filter is_SetSelectedDisks (events_since w w') = [proxy_SetSelectedDisks l])
  /\
  (sel <> [] ->
     l = sel /\ same_state w w' /\
     filter is_SetSelectedDisks (events_since w w') = [] /\
     forall l2 w2,
       select_all_disks_by_default env w' = (Returned l2, w2) ->
       l2 = l /\ same_state w' w2 /\
       filter is_SetSelectedDisks (events_since w' w2) = []).
Proof.
  intros H sel ign.
  destruct (select_all_disks_by_default_run _ _ H) as [(E & Hl & Hw) | (E & Hl & Hw)];
    fold sel in E; split; intros Hsel; try contradiction.
  - rewrite Hl at 1. rewrite filter_not_ignored. subst w'.
    repeat split. now events.
  - subst l w'. split; [reflexivity |]. split; [repeat split |].
    split; [now events |].
    intros l2 w2 H2.
    destruct (select_all_disks_by_default_run _ _ H2) as [(E2 & _) | (_ & Hl2 & ->)];
      [cbn in E2; contradiction |].
    split; [exact Hl2 |]. split; [repeat split | now events].
Qed.

Lemma select_all_disks_by_default_spec_witness :
  let w := sample_world false false [] false EmptyString in
  let w' := snd (select_all_disks_by_default quiet w) in
  select_all_disks_by_default quiet w = (Returned ["sda"; "sdc"]%string, w') /\
  SelectedDisks (disk_selection (services w')) = ["sda"; "sdc"]%string /\
  filter is_SetSelectedDisks (events_since w w')
  = [proxy_SetSelectedDisks ["sda"; "sdc"]%string].
Proof.
  intros w w'.
  assert (H : select_all_disks_by_default quiet w
              = (Returned ["sda"; "sdc"]%string, w')) by reflexivity.
  split; [exact H |].
  destruct (select_all_disks_by_default_spec quiet w H) as [Hempty _].
  destruct (Hempty eq_refl) as (_ & Hs & _ & Hev).
  split; [rewrite Hs; reflexivity | exact Hev].
Defined.

(** C9. A selection that already exists in the service is returned verbatim,
    ignored disks included; the ignored-disk filter only shapes a selection the
    auto-selector computes itself. *)
Theorem select_all_disks_by_default_keeps_ignored
  (env : Env) (w w' : World) (l : list string) :
  select_all_disks_by_default env w = (Returned l, w') ->
  let sel := SelectedDisks (disk_selection (services w)) in
  let ign := IgnoredDisks (disk_selection (services w)) in
  (sel <> [] ->
     l = sel /\ forall d, In d sel -> In d ign -> In d l)
  /\
  (sel = [] -> forall d, In d l -> ~ In d ign).
Proof.
  intros H sel ign.
  destruct (select_all_disks_by_default_run _ _ H) as [(E & Hl & _) | (E & Hl & _)];
    fold sel in E; split; intros Hsel; try contradiction.
  - intros d Hd. rewrite Hl in Hd. apply in_map_iff in Hd.
    destruct Hd as (x & <- & Hx). apply filter_In in Hx. destruct Hx as [_ Hx].
    intros Hin. apply str_in_In in Hin. fold ign in Hx. rewrite Hin in Hx.
    discriminate.
  - subst l. split; auto.
Qed.

Lemma select_all_disks_by_default_keeps_ignored_witness :
  let w := sample_world false false ["sdb"; "sdc"]%string false EmptyString in
  let w' := snd (select_all_disks_by_default quiet w) in
  In "sdb"%string (IgnoredDisks (disk_selection (services w))) /\
  select_all_disks_by_default quiet w = (Returned ["sdb"; "sdc"]%string, w') /\
  In "sdb"%string ["sdb"; "sdc"]%string.
Proof.
  intros w w'.
  assert (H : select_all_disks_by_default quiet w
              = (Returned ["sdb"; "sdc"]%string, w')) by reflexivity.
  destruct (select_all_disks_by_default_keeps_ignored quiet w H) as [Hkeep _].
  assert (Hne : SelectedDisks (disk_selection (services w)) <> []) by discriminate.
  destruct (Hkeep Hne) as [_ Hin].
  split; [left; reflexivity |]. split; [exact H |].
  apply Hin; left; reflexivity.
Defined.

(** What a run of the kickstart default applier has done, whatever its outcome. *)
Lemma set_storage_defaults_from_kickstart_run
  (env : Env) (w w' : World) (r : Outcome unit) :
  set_storage_defaults_from_kickstart env w = (r, w') ->
  let ap := auto_partitioning (services w) in
  let t := FilesystemType ap in
  (r = Returned tt -> Enabled ap && str_truthy t = true ->
   storage w' = set_default_boot_fstype t (set_default_fstype t (storage w))) /\
  (Enabled ap && str_truthy t = false -> same_state w w').
Proof.
  intros H ap t. unfold same_state.
  unfold set_storage_defaults_from_kickstart, get_property,
    storage_set_default_fstype_method, storage_set_default_boot_fstype_method,
    bind, invoke, gets, modify, ret in H.
  exec H; try (injection H as <- <-; cbn; repeat split; auto; discriminate).
  fold ap in H. fold t in H.
  destruct (Enabled ap && str_truthy t) eqn:E; cbn in H; exec H;
    injection H as <- <-; cbn; repeat split; auto; discriminate.
Qed.

Lemma str_truthy_nonempty (s : string) : str_truthy s = true <-> s <> EmptyString.
Proof. destruct s; cbn; split; congruence. Qed.

(** C4. The kickstart default applier.  When the auto-partitioning service
    reports enabled and a non-empty filesystem type, a call that returns has
    set the model's default and default-boot filesystem types to that type and
    nothing else on the model; when auto-partitioning is disabled or the type
    is empty, the model (and every other piece of state) is left as it was,
    whatever the outcome of the call. *)
Theorem set_storage_defaults_from_kickstart_spec
  (env : Env) (w w' : World) (r : Outcome unit) :
  set_storage_defaults_from_kickstart env w = (r, w') ->
  let ap := auto_partitioning (services w) in
  (Enabled ap = true -> FilesystemType ap <> EmptyString -> r = Returned tt ->
     default_fstype (storage w') = FilesystemType ap /\
     default_boot_fstype (storage w') = FilesystemType ap /\
     storage w' = set_default_boot_fstype (FilesystemType ap)
                    (set_default_fstype (FilesystemType ap) (storage w)))
  /\
  (Enabled ap = false \/ FilesystemType ap = EmptyString -> same_state w w').
Proof.
  intros H ap.
  destruct (set_storage_defaults_from_kickstart_run _ _ H) as [Hset Hkeep].
  fold ap in Hset, Hkeep. split.
  - intros He Ht Hr. apply str_truthy_nonempty in Ht.
    rewrite (Hset Hr) by (rewrite He, Ht; reflexivity). auto.
  - intros [He | Ht]; apply Hkeep.
    + rewrite He. reflexivity.
    + rewrite Ht. apply andb_false_r.
Qed.

Lemma set_storage_defaults_from_kickstart_spec_witness :
  let w := sample_world false false [] true "ext4" in
  let w' := snd (set_storage_defaults_from_kickstart quiet w) in
  set_storage_defaults_from_kickstart quiet w = (Returned tt, w') /\
  default_fstype (storage w') = "ext4"%string /\
  default_boot_fstype (storage w') = "ext4"%string.
Proof.
  intros w w'.
  assert (H : set_storage_defaults_from_kickstart quiet w = (Returned tt, w'))
    by reflexivity.
  destruct (set_storage_defaults_from_kickstart_spec quiet w H) as [Hset _].
  assert (Hne : FilesystemType (auto_partitioning (services w)) <> EmptyString)
    by discriminate.
  destruct (Hset eq_refl Hne eq_refl) as (Hd & Hb & _).
  split; [exact H |]. split; [exact Hd | exact Hb].
Defined.

(** *** One step of a computation *)

Lemma bind_ret (A B : Type) (a : A) (k : A -> M B) (w : World) :
  bind (ret a) k w = k a w.
Proof. reflexivity. Qed.

Lemma bind_modify (B : Type) (f : World -> World) (k : unit -> M B) (w : World) :
  bind (modify f) k w = k tt (f w).
Proof. reflexivity. Qed.

Lemma bind_gets (A B : Type) (f : World -> A) (k : A -> M B) (w : World) :
  bind (gets f) k w = k (f w) w.
Proof. reflexivity. Qed.

Lemma bind_called (B : Type) (f : OwnFunction) (k : unit -> M B) (w : World) :
  bind (called f) k w = k tt (log (enter f) w).
Proof. reflexivity. Qed.

Lemma bind_invoke (env : Env) (B : Type) (c : call) (k : unit -> M B) (w : World) :
  bind (invoke env c) k w
  = match raises env (trace w ++ [c]) with
    | Some e => (Raised e, log c w)
    | None => k tt (log c w)
    end.
Proof. unfold bind, invoke. cbn. destruct (raises env _); reflexivity. Qed.

Lemma run_invoke (env : Env) (c : call) (w : World) :
  invoke env c w
  = match raises env (trace w ++ [c]) with
    | Some e => (Raised e, log c w)
    | None => (Returned tt, log c w)
    end.
Proof. reflexivity. Qed.

Lemma bind_get_property (env : Env) (A B : Type) (obj : DBusObject) (p : string)
  (v : Services -> A) (k : A -> M B) (w : World) :
  bind (get_property env obj p v) k w
  = match raises env (trace w ++ [proxy_get obj p]) with
    | Some e => (Raised e, log (proxy_get obj p) w)
    | None => k (v (services w)) (log (proxy_get obj p) w)
    end.
Proof.
  unfold get_property, bind, invoke, gets. cbn.
  destruct (raises env _); reflexivity.
Qed.

Lemma bind_assoc (A B C : Type) (m : M A) (f : A -> M B) (g : B -> M C) (w : World) :
  bind (bind m f) g w = bind m (fun a => bind (f a) g) w.
Proof. unfold bind. destruct (m w) as [[a | e |] w1]; reflexivity. Qed.

Lemma bind_when_true (B : Type) (body : M unit) (k : unit -> M B) (w : World) :
  bind (when true body) k w = bind body k w.
Proof. reflexivity. Qed.

Lemma bind_when_false (B : Type) (body : M unit) (k : unit -> M B) (w : World) :
  bind (when false body) k w = k tt w.
Proof. reflexivity. Qed.

(** Projections of an updated world. *)
Lemma conf_log c w : conf (log c w) = conf w. Proof. reflexivity. Qed.
Lemma conf_with_libraries f w : conf (with_libraries f w) = conf w.
Proof. reflexivity. Qed.
Lemma conf_with_flags f w : conf (with_flags f w) = conf w. Proof. reflexivity. Qed.
Lemma conf_with_storage f w : conf (with_storage f w) = conf w.
Proof. reflexivity. Qed.
Lemma conf_with_config f w : conf (with_config f w) = conf w. Proof. reflexivity. Qed.
Lemma arch_log c w : arch_is_s390 (log c w) = arch_is_s390 w. Proof. reflexivity. Qed.
Lemma arch_with_libraries f w : arch_is_s390 (with_libraries f w) = arch_is_s390 w.
Proof. reflexivity. Qed.
Lemma arch_with_flags f w : arch_is_s390 (with_flags f w) = arch_is_s390 w.
Proof. reflexivity. Qed.
Lemma arch_with_storage f w : arch_is_s390 (with_storage f w) = arch_is_s390 w.
Proof. reflexivity. Qed.
Lemma arch_with_config f w : arch_is_s390 (with_config f w) = arch_is_s390 w.
Proof. reflexivity. Qed.
Lemma services_log c w : services (log c w) = services w. Proof. reflexivity. Qed.
Lemma services_with_storage f w : services (with_storage f w) = services w.
Proof. reflexivity. Qed.
Lemma services_with_config f w : services (with_config f w) = services w.
Proof. reflexivity. Qed.
Lemma libraries_log c w : libraries (log c w) = libraries w. Proof. reflexivity. Qed.

Create Rewrite HintDb world.
#[local] Hint Rewrite conf_log conf_with_libraries conf_with_flags conf_with_storage
  conf_with_config arch_log arch_with_libraries arch_with_flags arch_with_storage
  arch_with_config services_log services_with_storage services_with_config
  libraries_log : world.

(** One step of [H : m w = (r, w')]: the first action of [m] is performed. *)
Ltac step H :=
  first
    [ rewrite bind_modify in H
    | rewrite bind_gets in H
    | rewrite bind_called in H
    | rewrite bind_ret in H
    | rewrite bind_get_property in H
    | rewrite bind_invoke in H
    | rewrite bind_when_true in H
    | rewrite bind_when_false in H
    | rewrite bind_assoc in H
    | rewrite run_invoke in H ];
  cbv beta in H; autorewrite with world in H.

(** Runs [H : m w = (r, w')] to its end, one case per raising call and per
    branch taken. *)
Ltac run H :=
  repeat first
    [ step H
    | match type of H with
      | context [match raises ?e ?t with _ => _ end] => destruct (raises e t) eqn:?
      | context [when (negb ?b) _] => destruct b eqn:?; cbn [negb] in H
      | context [when ?b _] =>
          lazymatch b with
          | true => fail
          | false => fail
          | _ => destruct b eqn:?
          end
      | context [if ?b then _ else _] => destruct b eqn:?
      end ].

Lemma enable_installer_mode_run (env : Env) (w w' : World) (r : Outcome unit) :
  enable_installer_mode env w = (r, w') ->
  conf w' = conf w /\
  blivet_flags (libraries w')
  = installer_flags (conf w) (blivet_flags (libraries w)) /\
  program_log_lock (libraries w') = true /\
  (device_name_blacklist (libraries w') = installer_blacklist \/
   device_name_blacklist (libraries w') = device_name_blacklist (libraries w)) /\
  (r = Returned tt -> device_name_blacklist (libraries w') = installer_blacklist) /\
  (r = Returned tt \/ exists e t, r = Raised e /\ raises env t = Some e).
Proof.
  intros H. unfold enable_installer_mode, load_plugin_s390, blockdev_reinit_s390 in H.
  run H.
  all: injection H as <- <-; unfold installer_flags;
    repeat match goal with E : _ = _ |- _ => rewrite E end.
  all: repeat split; eauto 7; discriminate.
Qed.

Lemma installer_flags_idem (c : Conf) (f : Flags) :
  installer_flags c (installer_flags c f) = installer_flags c f.
Proof. unfold installer_flags; cbn. destruct (target_is_image c); reflexivity. Qed.

(** C7. The environment configuration is idempotent on the library's
    settings: after an invocation that returns, a second invocation (whatever
    its outcome) leaves Blivet's flags, udev's device-name blacklist and the
    log lock with the values the first one gave them. *)
Theorem enable_installer_mode_idempotent
  (env : Env) (w w1 w2 : World) (r2 : Outcome unit) :
  enable_installer_mode env w = (Returned tt, w1) ->
  enable_installer_mode env w1 = (r2, w2) ->
  blivet_flags (libraries w2) = blivet_flags (libraries w1) /\
  device_name_blacklist (libraries w2) = device_name_blacklist (libraries w1) /\
  program_log_lock (libraries w2) = program_log_lock (libraries w1).
Proof.
  intros H1 H2.
  destruct (enable_installer_mode_run _ _ H1) as (Hc1 & Hf1 & Hl1 & _ & Hb1 & _).
  destruct (enable_installer_mode_run _ _ H2) as (_ & Hf2 & Hl2 & Hb2 & _ & _).
  specialize (Hb1 eq_refl). repeat split.
  - rewrite Hf2, Hf1, Hc1. apply installer_flags_idem.
  - destruct Hb2 as [-> | ->]; congruence.
  - congruence.
Qed.

Lemma enable_installer_mode_idempotent_witness :
  let w := sample_world true true [] false EmptyString in
  let w1 := snd (enable_installer_mode quiet w) in
  let w2 := snd (enable_installer_mode quiet w1) in
  enable_installer_mode quiet w = (Returned tt, w1) /\
  blivet_flags (libraries w2) = blivet_flags (libraries w1) /\
  device_name_blacklist (libraries w2) = device_name_blacklist (libraries w1).
Proof.
  intros w w1 w2.
  assert (H1 : enable_installer_mode quiet w = (Returned tt, w1))
    by (vm_compute; reflexivity).
  assert (H2 : enable_installer_mode quiet w1
               = (fst (enable_installer_mode quiet w1), w2))
    by (vm_compute; reflexivity).
  destruct (enable_installer_mode_idempotent quiet w H1 H2) as (Hf & Hb & _).
  split; [exact H1 |]. split; [exact Hf | exact Hb].
Defined.

Lemma run_storage_reset_method (env : Env) (w : World) :
  storage_reset_method env w
  = match raises env (trace w ++ [storage_reset (storage w)]) with
    | Some e => (Raised e, log (storage_reset (storage w)) w)
    | None =>
        (Returned tt,
         with_storage (set_disks (scan env (trace w ++ [storage_reset (storage w)])))
           (log (storage_reset (storage w)) w))
    end.
Proof. reflexivity. Qed.

(** What one run of the reset operation has done, whatever its outcome: it
    has logged a non-empty prefix [l] of [reset_calls w], the whole of it when
    it got as far as the reset primitive. *)
Lemma reset_storage_run (env : Env) (w w' : World) (r : Outcome unit) :
  reset_storage env w = (r, w') ->
  exists l rest,
    trace w' = trace w ++ enter fn_reset_storage :: l /\
    reset_calls w = enter fn_reset_storage :: l ++ rest /\
    conf w' = conf w /\ arch_is_s390 w' = arch_is_s390 w /\
    libraries w' = libraries w /\ services w' = services w /\
    (r = Returned tt ->
       rest = [] /\
       storage w' = set_disks (scan env (trace w')) (prepared_storage w)) /\
    (existsb is_storage_reset l = true -> rest = []) /\
    (r = Returned tt \/ exists e t, r = Raised e /\ raises env t = Some e).
Proof.
  intros H. unfold reset_storage, update_storage_config in H.
  run H.
  all: try rewrite run_storage_reset_method in H.
  all: run H.
  all: injection H as <- <-; eexists; eexists.
  all: split; [cbn; rewrite <- ?app_assoc; cbn; reflexivity |].
  all: split;
    [unfold reset_calls, reload_calls;
     repeat match goal with E : _ = _ |- _ => rewrite E end;
     cbn; reflexivity |].
  all: repeat (split; [first [reflexivity | cbn; assumption] |]).
  all: split; [try discriminate; intros _; split; reflexivity |].
  all: split; [first [reflexivity | intros X; cbn in X; discriminate] |].
  all: eauto 7.
Qed.

(** *** Counting calls *)

Lemma count_app (p : call -> bool) (l r : list call) :
  count p (l ++ r) = (count p l + count p r)%nat.
Proof. unfold count. rewrite filter_app. apply length_app. Qed.

Lemma count_cons (p : call -> bool) (c : call) (l : list call) :
  count p (c :: l) = ((if p c then 1 else 0) + count p l)%nat.
Proof. unfold count. cbn. destruct (p c); reflexivity. Qed.

Lemma reset_calls_count (w : World) :
  count is_reset_storage (reset_calls w) = 1%nat /\
  count is_shutdown (reset_calls w) = 0%nat /\
  count is_error_handler_cb (reset_calls w) = 0%nat.
Proof.
  unfold reset_calls, reload_calls.
  destruct (target_is_image (conf w)), (arch_is_s390 w); repeat split.
Qed.

(** The log of one run of the reset operation: one entry into
    [reset_storage], no shutdown, no call of the error handler. *)
Lemma reset_storage_log (env : Env) (w w' : World) (r : Outcome unit) :
  reset_storage env w = (r, w') ->
  exists l,
    trace w' = trace w ++ l /\
    count is_reset_storage l = 1%nat /\
    count is_shutdown l = 0%nat /\
    count is_error_handler_cb l = 0%nat.
Proof.
  intros H.
  destruct (reset_storage_run _ _ H) as (l & rest & Ht & Hc & _).
  destruct (reset_calls_count w) as (C1 & C2 & C3).
  rewrite Hc in C1, C2, C3.
  change (enter fn_reset_storage :: l ++ rest)
    with ((enter fn_reset_storage :: l) ++ rest) in C1, C2, C3.
  rewrite count_app in C1, C2, C3.
  exists (enter fn_reset_storage :: l). split; [exact Ht |].
  assert (H1 : (1 <= count is_reset_storage (enter fn_reset_storage :: l))%nat).
  { rewrite count_cons. cbn. lia. }
  lia.
Qed.

Lemma error_handler_cb_method_run (env : Env) (e : exn) (w w' : World) (r : Outcome Z) :
  error_handler_cb_method env e w = (r, w') ->
  w' = log (error_handler_cb e) w /\
  (r = Returned (directive env (trace w') e) \/ exists e', r = Raised e').
Proof.
  unfold error_handler_cb_method, bind, invoke, gets. cbn.
  destruct (raises env _); intros H; injection H as <- <-; split; eauto.
Qed.

Lemma storage_shutdown_method_run (env : Env) (w w' : World) (r : Outcome unit) :
  storage_shutdown_method env w = (r, w') -> w' = log storage_shutdown w.
Proof.
  unfold storage_shutdown_method, invoke. cbn.
  destruct (raises env _); intros H; injection H as <- <-; reflexivity.
Qed.

Lemma initialize_storage_loop_S (env : Env) (ER : Z) (fuel : nat) (w : World) :
  initialize_storage_loop env ER (S fuel) w
  = match reset_storage env w with
    | (Returned _, w') => (Returned tt, w')
    | (Raised e, w') =>
        if is_StorageError e then
          bind (error_handler_cb_method env e)
            (fun d => if d =? ER then raise e
                      else initialize_storage_loop env ER fuel) w'
        else (Raised e, w')
    | (OutOfFuel, w') => (OutOfFuel, w')
    end.
Proof. reflexivity. Qed.

(** The retry loop never shuts the model down. *)
Lemma initialize_storage_loop_no_shutdown (env : Env) (ER : Z) (fuel : nat) :
  forall (w w' : World) (r : Outcome unit),
    initialize_storage_loop env ER fuel w = (r, w') ->
    exists l, trace w' = trace w ++ l /\ count is_shutdown l = 0%nat.
Proof.
  induction fuel as [|fuel IH]; intros w w' r H.
  - injection H as <- <-. exists []. split; [now rewrite app_nil_r | reflexivity].
  - rewrite initialize_storage_loop_S in H.
    destruct (reset_storage env w) as [[[] | e |] w1] eqn:Hreset;
      destruct (reset_storage_log _ _ Hreset) as (l1 & Ht1 & _ & Hs1 & _).
    + injection H as <- <-. eauto.
    + destruct (is_StorageError e); [| injection H as <- <-; eauto].
      unfold bind in H.
      destruct (error_handler_cb_method env e w1) as [[d | e' |] w2] eqn:Hcb;
        destruct (error_handler_cb_method_run _ _ _ Hcb) as [-> _].
      * destruct (d =? ER).
        -- injection H as <- <-. exists (l1 ++ [error_handler_cb e]).
           cbn. rewrite Ht1, <- app_assoc, count_app. split; [reflexivity |].
           rewrite Hs1. reflexivity.
        -- destruct (IH _ _ _ H) as (l2 & Ht2 & Hs2).
           exists (l1 ++ error_handler_cb e :: l2).
           rewrite Ht2. cbn. rewrite Ht1, <- !app_assoc. split; [reflexivity |].
           rewrite count_app, count_cons, Hs1, Hs2. reflexivity.
      * injection H as <- <-. exists (l1 ++ [error_handler_cb e]).
        cbn. rewrite Ht1, <- app_assoc, count_app. split; [reflexivity |].
        rewrite Hs1. reflexivity.
      * injection H as <- <-. exists (l1 ++ [error_handler_cb e]).
        cbn. rewrite Ht1, <- app_assoc, count_app. split; [reflexivity |].
        rewrite Hs1. reflexivity.
    + injection H as <- <-. eauto.
Qed.

(** C10. In every run of the initializer, whatever its outcome, the first
    logged call is the model's shutdown and no other shutdown follows: the
    reset attempts and the retries come after it and never repeat it. *)
Theorem initialize_storage_shutdown_once (env : Env) (ER : Z) (fuel : nat) (w : World) :
  let w' := snd (initialize_storage env ER fuel w) in
  exists rest,
    events_since w w' = storage_shutdown :: rest /\
    count is_shutdown rest = 0%nat /\
    count is_shutdown (events_since w w') = 1%nat.
Proof.
  intros w'. subst w'. unfold initialize_storage, bind.
  destruct (storage_shutdown_method env w) as [[[] | e |] w0] eqn:Hs;
    pose proof (storage_shutdown_method_run _ _ Hs) as ->.
  - destruct (initialize_storage_loop env ER fuel (log storage_shutdown w))
      as [r w'] eqn:Hl.
    destruct (initialize_storage_loop_no_shutdown _ _ _ _ Hl) as (l & Ht & Hc).
    exists l. cbn [snd].
    rewrite (@events_since_app w w' (storage_shutdown :: l))
      by (rewrite Ht; cbn; now rewrite <- app_assoc).
    rewrite count_cons, Hc. auto.
  - exists []. cbn [snd]. rewrite (@events_since_app w _ [storage_shutdown]) by reflexivity.
    auto.
  - exists []. cbn [snd]. rewrite (@events_since_app w _ [storage_shutdown]) by reflexivity.
    auto.
Qed.

(** C2. The retry loop, two failures then success.  When the shutdown
    returns, the first two runs of the reset operation raise a storage error,
    the error handler answers each with a directive other than
    [ERROR_RAISE], and the third run returns, then the initializer (with fuel
    for at least three attempts) returns without an error in the world the
    third run reached, having entered the reset operation exactly three times
    and called the handler exactly twice. *)
Theorem initialize_storage_retries_twice
  (env : Env) (ER : Z) (fuel : nat) (w w0 w1 w1' w2 w2' w3 : World)
  (m1 m2 : string) (d1 d2 : Z) :
  storage_shutdown_method env w = (Returned tt, w0) ->
  reset_storage env w0 = (Raised (StorageError m1), w1) ->
  error_handler_cb_method env (StorageError m1) w1 = (Returned d1, w1') ->
  d1 <> ER ->
  reset_storage env w1' = (Raised (StorageError m2), w2) ->
  error_handler_cb_method env (StorageError m2) w2 = (Returned d2, w2') ->
  d2 <> ER ->
  reset_storage env w2' = (Returned tt, w3) ->
  initialize_storage env ER (3 + fuel) w = (Returned tt, w3) /\
  count is_reset_storage (events_since w w3) = 3%nat /\
  count is_error_handler_cb (events_since w w3) = 2%nat.
Proof.
  intros Hs Hr1 Hc1 Hd1 Hr2 Hc2 Hd2 Hr3. split.
  - unfold initialize_storage, bind. rewrite Hs.
    change (3 + fuel)%nat with (S (S (S fuel))).
    rewrite initialize_storage_loop_S, Hr1. cbn [is_StorageError]. unfold bind.
    rewrite Hc1. apply Z.eqb_neq in Hd1. rewrite Hd1.
    rewrite initialize_storage_loop_S, Hr2. cbn [is_StorageError]. unfold bind.
    rewrite Hc2. apply Z.eqb_neq in Hd2. rewrite Hd2.
    rewrite initialize_storage_loop_S, Hr3. reflexivity.
  - pose proof (storage_shutdown_method_run _ _ Hs) as E0.
    destruct (reset_storage_log _ _ Hr1) as (l1 & Ht1 & Hn1 & _ & Hh1).
    destruct (error_handler_cb_method_run _ _ _ Hc1) as [E1 _].
    destruct (reset_storage_log _ _ Hr2) as (l2 & Ht2 & Hn2 & _ & Hh2).
    destruct (error_handler_cb_method_run _ _ _ Hc2) as [E2 _].
    destruct (reset_storage_log _ _ Hr3) as (l3 & Ht3 & Hn3 & _ & Hh3).
    rewrite (@events_since_app w w3
               ((storage_shutdown :: l1) ++ (error_handler_cb (StorageError m1) :: l2)
                ++ (error_handler_cb (StorageError m2) :: l3))).
    + rewrite !count_app, !count_cons, Hn1, Hn2, Hn3, Hh1, Hh2, Hh3. split; reflexivity.
    + rewrite Ht3, E2. cbn [trace log]. rewrite Ht2, E1. cbn [trace log].
      rewrite Ht1, E0. cbn [trace log]. rewrite <- !app_assoc. reflexivity.
Qed.

Lemma initialize_storage_retries_twice_witness :
  let env := flaky 2 1 in
  let w := sample_world false false ["sda"]%string false EmptyString in
  let w3 := snd (initialize_storage env 0 3 w) in
  initialize_storage env 0 3 w = (Returned tt, w3) /\
  count is_reset_storage (events_since w w3) = 3%nat /\
  count is_error_handler_cb (events_since w w3) = 2%nat.
Proof.
  intros env w w3.
  set (w0 := snd (storage_shutdown_method env w)).
  set (w1 := snd (reset_storage env w0)).
  set (w1' := snd (error_handler_cb_method env (StorageError "cannot scan") w1)).
  set (w2 := snd (reset_storage env w1')).
  set (w2' := snd (error_handler_cb_method env (StorageError "cannot scan") w2)).
  assert (E3 : w3 = snd (reset_storage env w2')) by (vm_compute; reflexivity).
  rewrite E3.
  apply (@initialize_storage_retries_twice env 0 0 w w0 w1 w1' w2 w2' _
           "cannot scan" "cannot scan" 1 1);
    first [vm_compute; reflexivity | discriminate].
Defined.

(** C3. The retry loop, [ERROR_RAISE] on the first error.  When the shutdown
    returns, the first run of the reset operation raises a storage error and
    the error handler answers [ERROR_RAISE], the initializer raises that same
    error in the world the handler left, and the reset operation has been
    entered exactly once. *)
Theorem initialize_storage_raise_directive
  (env : Env) (ER : Z) (fuel : nat) (w w0 w1 w2 : World) (m : string) :
  storage_shutdown_method env w = (Returned tt, w0) ->
  reset_storage env w0 = (Raised (StorageError m), w1) ->
  error_handler_cb_method env (StorageError m) w1 = (Returned ER, w2) ->
  initialize_storage env ER (S fuel) w = (Raised (StorageError m), w2) /\
  count is_reset_storage (events_since w w2) = 1%nat /\
  count is_error_handler_cb (events_since w w2) = 1%nat.
Proof.
  intros Hs Hr Hc. split.
  - unfold initialize_storage, bind. rewrite Hs.
    rewrite initialize_storage_loop_S, Hr. cbn [is_StorageError]. unfold bind.
    rewrite Hc, Z.eqb_refl. reflexivity.
  - pose proof (storage_shutdown_method_run _ _ Hs) as E0.
    destruct (reset_storage_log _ _ Hr) as (l1 & Ht1 & Hn1 & _ & Hh1).
    destruct (error_handler_cb_method_run _ _ _ Hc) as [E1 _].
    rewrite (@events_since_app w w2
               ((storage_shutdown :: l1) ++ [error_handler_cb (StorageError m)])).
    + rewrite !count_app, !count_cons, Hn1, Hh1. split; reflexivity.
    + rewrite E1. cbn [trace log]. rewrite Ht1, E0. cbn [trace log].
      rewrite <- !app_assoc. reflexivity.
Qed.

Lemma initialize_storage_raise_directive_witness :
  let env := flaky 1 0 in
  let w := sample_world false false ["sda"]%string false EmptyString in
  let w2 := snd (initialize_storage env 0 5 w) in
  initialize_storage env 0 5 w = (Raised (StorageError "cannot scan"), w2) /\
  count is_reset_storage (events_since w w2) = 1%nat /\
  count is_error_handler_cb (events_since w w2) = 1%nat.
Proof.
  intros env w w2.
  set (w0 := snd (storage_shutdown_method env w)).
  set (w1 := snd (reset_storage env w0)).
  assert (E2 : w2 = snd (error_handler_cb_method env (StorageError "cannot scan") w1))
    by (vm_compute; reflexivity).
  rewrite E2.
  apply (@initialize_storage_raise_directive env 0 4 w w0 w1 _ "cannot scan");
    vm_compute; reflexivity.
Defined.

(** C8. The [except] clause of the retry loop takes storage errors only.
    An exception of another kind raised by a run of the reset operation, at
    any attempt, leaves the loop as it is, in the world where it was raised:
    the error handler is not called and the reset operation is not entered
    again; so it leaves the initializer when the attempt is the first.  A
    storage error is handed to the error handler next. *)
Theorem initialize_storage_catches_storage_errors_only
  (env : Env) (ER : Z) (fuel : nat) (w w1 : World) (e : exn) :
  reset_storage env w = (Raised e, w1) ->
  (is_StorageError e = false ->
     initialize_storage_loop env ER (S fuel) w = (Raised e, w1) /\
     count is_error_handler_cb (events_since w w1) = 0%nat /\
     count is_reset_storage (events_since w w1) = 1%nat /\
     forall w_pre,
       storage_shutdown_method env w_pre = (Returned tt, w) ->
       initialize_storage env ER (S fuel) w_pre = (Raised e, w1))
  /\
  (is_StorageError e = true ->
     exists rest,
       events_since w1 (snd (initialize_storage_loop env ER (S fuel) w))
       = error_handler_cb e :: rest).
Proof.
  intros Hr. split; intros He.
  - assert (Hl : initialize_storage_loop env ER (S fuel) w = (Raised e, w1))
      by (rewrite initialize_storage_loop_S, Hr, He; reflexivity).
    destruct (reset_storage_log _ _ Hr) as (l & Ht & Hn & _ & Hh).
    rewrite (@events_since_app _ _ _ Ht).
    repeat split; auto.
    intros w_pre Hs. unfold initialize_storage, bind. now rewrite Hs.
  - rewrite initialize_storage_loop_S, Hr, He. unfold bind.
    destruct (error_handler_cb_method env e w1) as [[d | e' |] w2] eqn:Hc;
      destruct (error_handler_cb_method_run _ _ _ Hc) as [-> _].
    + destruct (d =? ER).
      * exists []. apply events_since_app. reflexivity.
      * destruct (initialize_storage_loop env ER fuel (log (error_handler_cb e) w1))
          as [r w3] eqn:Hl.
        destruct (initialize_storage_loop_no_shutdown _ _ _ _ Hl) as (l & Ht & _).
        exists l. apply events_since_app. cbn [snd]. rewrite Ht. cbn.
        now rewrite <- app_assoc.
    + exists []. apply events_since_app. reflexivity.
    + exists []. apply events_since_app. reflexivity.
Qed.

Lemma initialize_storage_catches_storage_errors_only_witness :
  let env := no_disk_selection in
  let w := sample_world false false ["sda"]%string false EmptyString in
  let w0 := snd (storage_shutdown_method env w) in
  let w1 := snd (reset_storage env w0) in
  initialize_storage env 0 5 w = (Raised (OtherException "DBusError" "no reply"), w1) /\
  count is_error_handler_cb (events_since w0 w1) = 0%nat.
Proof.
  intros env w w0 w1.
  assert (Hr : reset_storage env w0
               = (Raised (OtherException "DBusError" "no reply"), w1))
    by (vm_compute; reflexivity).
  destruct (@initialize_storage_catches_storage_errors_only env 0 4 w0 w1 _ Hr)
    as [Hother _].
  destruct (Hother eq_refl) as (_ & Hh & _ & Hinit).
  split; [apply Hinit; vm_compute; reflexivity | exact Hh].
Defined.

(** The events of one run of the reset operation, as a prefix of the calls
    of a complete reset. *)
Lemma reset_storage_events (env : Env) (w w' : World) (r : Outcome unit) :
  reset_storage env w = (r, w') ->
  exists rest,
    reset_calls w = events_since w w' ++ rest /\
    (existsb is_storage_reset (events_since w w') = true -> rest = []) /\
    (r = Returned tt -> rest = []).
Proof.
  intros H.
  destruct (reset_storage_run _ _ H) as (l & rest & Ht & Hc & _ & _ & _ & _ & Hr & Hp & _).
  rewrite (@events_since_app _ _ _ Ht). exists rest.
  split; [exact Hc |]. split; [exact Hp |]. intros E. now destruct (Hr E).
Qed.

Lemma count_prefix_0 (p : call -> bool) (l rest : list call) :
  count p (l ++ rest) = 0%nat -> count p l = 0%nat.
Proof. rewrite count_app. lia. Qed.

(** C5. The module reloads of one run of the reset operation.  On an image
    target the run calls none of the iSCSI start-up, the FCoE reload and the
    zFCP reload, whatever its outcome.  On another target, on an architecture
    other than s390, it never calls the zFCP reload, and a run that gets as
    far as the reset primitive has called the iSCSI start-up and the FCoE
    reload once each. *)
Theorem reset_storage_reloads (env : Env) (w w' : World) (r : Outcome unit) :
  reset_storage env w = (r, w') ->
  let l := events_since w w' in
  (target_is_image (conf w) = true ->
     count is_iscsi_startup l = 0%nat /\
     count (is_ReloadModule FCOE) l = 0%nat /\
     count (is_ReloadModule ZFCP) l = 0%nat)
  /\
  (target_is_image (conf w) = false -> arch_is_s390 w = false ->
     count (is_ReloadModule ZFCP) l = 0%nat /\
     (existsb is_storage_reset l = true ->
        count is_iscsi_startup l = 1%nat /\
        count (is_ReloadModule FCOE) l = 1%nat)).
Proof.
  intros H l. subst l.
  destruct (reset_storage_events _ _ H) as (rest & Hc & Hp & _).
  unfold reset_calls, reload_calls in Hc. split.
  - intros Himg. rewrite Himg in Hc.
    repeat split; apply count_prefix_0 with (rest := rest); rewrite <- Hc; reflexivity.
  - intros Himg Harch. rewrite Himg, Harch in Hc. split.
    + apply count_prefix_0 with (rest := rest); rewrite <- Hc; reflexivity.
    + intros Hreach. rewrite (Hp Hreach), app_nil_r in Hc. rewrite <- Hc.
      split; reflexivity.
Qed.

Lemma reset_storage_reloads_witness :
  let w := sample_world false false ["sda"]%string false EmptyString in
  let w' := snd (reset_storage quiet w) in
  let l := events_since w w' in
  count (is_ReloadModule ZFCP) l = 0%nat /\
  count is_iscsi_startup l = 1%nat /\
  count (is_ReloadModule FCOE) l = 1%nat.
Proof.
  intros w w' l.
  assert (H : reset_storage quiet w = (Returned tt, w')) by (vm_compute; reflexivity).
  destruct (reset_storage_reloads quiet w H) as [_ Hreal].
  destruct (Hreal eq_refl eq_refl) as [Hz Hreach].
  split; [exact Hz |]. apply Hreach. vm_compute. reflexivity.
Defined.

(** C6. What the reset primitive is called on.  In every run of the reset
    operation that calls the primitive, the model handed to it has the five
    discovery attributes of the disk-initialization service (and its other
    configuration untouched) and the ignored and selected disks of the
    disk-selection service as they are at that run; before that call the run
    has read the five properties, then the two disk lists, then done the
    reloads, in this order.  A run that returns has called the primitive. *)
Theorem reset_storage_prepares_model (env : Env) (w w' : World) (r : Outcome unit) :
  reset_storage env w = (r, w') ->
  (forall s, In (storage_reset s) (events_since w w') ->
     s = prepared_storage w /\ events_since w w' = reset_calls w)
  /\
  (r = Returned tt ->
     events_since w w' = reset_calls w /\
     In (storage_reset (prepared_storage w)) (events_since w w')).
Proof.
  intros H.
  destruct (reset_storage_events _ _ H) as (rest & Hc & Hp & Hr).
  assert (Hin : forall s, In (storage_reset s) (reset_calls w) -> s = prepared_storage w).
  { intros s. unfold reset_calls, reload_calls.
    destruct (target_is_image (conf w)), (arch_is_s390 w); cbn;
      intuition (try discriminate); congruence. }
  assert (Hlast : In (storage_reset (prepared_storage w)) (reset_calls w)).
  { unfold reset_calls. rewrite app_assoc. apply in_or_app. right. left. reflexivity. }
  split.
  - intros s Hs.
    assert (Hreach : existsb is_storage_reset (events_since w w') = true).
    { apply existsb_exists. exists (storage_reset s). split; [exact Hs | reflexivity]. }
    rewrite (Hp Hreach), app_nil_r in Hc. rewrite <- Hc.
    split; [| reflexivity]. apply Hin. rewrite Hc. exact Hs.
  - intros E. rewrite (Hr E), app_nil_r in Hc. rewrite <- Hc. split; [reflexivity | exact Hlast].
Qed.

Lemma reset_storage_prepares_model_witness :
  let w := sample_world true false ["sda"]%string false EmptyString in
  let w' := snd (reset_storage quiet w) in
  events_since w w' = reset_calls w /\
  In (storage_reset (prepared_storage w)) (events_since w w') /\
  clear_part_type (config (prepared_storage w)) = Some 2 /\
  ignored_disks (prepared_storage w) = ["sdb"]%string /\
  exclusive_disks (prepared_storage w) = ["sda"]%string.
Proof.
  intros w w'.
  assert (H : reset_storage quiet w = (Returned tt, w')) by (vm_compute; reflexivity).
  destruct (reset_storage_prepares_model quiet w H) as [_ Hret].
  destruct (Hret eq_refl) as [Hev Hin].
  split; [exact Hev |]. split; [exact Hin |]. repeat split.
Defined.

(** ** Runs with collaborators that never raise

    Every function of the module returns, and the initializer needs one
    attempt only. *)

Lemma select_all_disks_by_default_returns (env : Env) (w : World) :
  never_raises env ->
  exists l w', select_all_disks_by_default env w = (Returned l, w').
Proof.
  intros Hq.
  unfold select_all_disks_by_default, get_property, SetSelectedDisks, bind, invoke,
    gets, modify, ret.
  cbn. rewrite !Hq. cbn.
  destruct (SelectedDisks (disk_selection (services w))); cbn; rewrite ?Hq; eauto.
Qed.

Lemma set_storage_defaults_from_kickstart_returns (env : Env) (w : World) :
  never_raises env ->
  exists w', set_storage_defaults_from_kickstart env w = (Returned tt, w').
Proof.
  intros Hq.
  unfold set_storage_defaults_from_kickstart, get_property,
    storage_set_default_fstype_method, storage_set_default_boot_fstype_method,
    when, bind, invoke, gets, modify, ret.
  cbn. rewrite !Hq. cbn.
  destruct (Enabled (auto_partitioning (services w))
            && str_truthy (FilesystemType (auto_partitioning (services w))));
    cbn; rewrite ?Hq; cbn; rewrite ?Hq; eauto.
Qed.

Lemma enable_installer_mode_returns (env : Env) (w : World) :
  never_raises env ->
  exists w', enable_installer_mode env w = (Returned tt, w').
Proof.
  intros Hq. destruct (enable_installer_mode env w) as [r w'] eqn:H.
  destruct (enable_installer_mode_run _ _ H)
    as (_ & _ & _ & _ & _ & [-> | (e & t & _ & He)]); [eauto |].
  rewrite Hq in He. discriminate.
Qed.

Lemma reset_storage_returns (env : Env) (w : World) :
  never_raises env ->
  exists w', reset_storage env w = (Returned tt, w').
Proof.
  intros Hq. destruct (reset_storage env w) as [r w'] eqn:H.
  destruct (reset_storage_run _ _ H)
    as (l & rest & _ & _ & _ & _ & _ & _ & _ & _ & [-> | (e & t & _ & He)]); [eauto |].
  rewrite Hq in He. discriminate.
Qed.

Lemma initialize_storage_returns (env : Env) (ER : Z) (fuel : nat) (w : World) :
  never_raises env ->
  exists w',
    initialize_storage env ER (S fuel) w = (Returned tt, w') /\
    count is_reset_storage (events_since w w') = 1%nat.
Proof.
  intros Hq.
  destruct (reset_storage_returns (log storage_shutdown w) Hq) as [w' Hr].
  exists w'. split.
  - unfold initialize_storage, bind, storage_shutdown_method, invoke. cbn -[reset_storage].
    rewrite Hq. fold (log storage_shutdown w). now rewrite Hr.
  - destruct (reset_storage_log _ _ Hr) as (l & Ht & Hn & _).
    rewrite (@events_since_app w w' (storage_shutdown :: l))
      by (rewrite Ht; cbn; now rewrite <- app_assoc).
    rewrite count_cons, Hn. reflexivity.
Qed.

(** ** Further properties of the module *)

(** What a run of [load_plugin_s390] has done, whatever its outcome. *)
Lemma load_plugin_s390_run (env : Env) (w w' : World) (r : Outcome unit) :
  load_plugin_s390 env w = (r, w') ->
  exists l,
    trace w' = trace w ++ enter fn_load_plugin_s390 :: l /\
    conf w' = conf w /\ arch_is_s390 w' = arch_is_s390 w /\
    services w' = services w /\ storage w' = storage w /\
    blivet_flags (libraries w') = blivet_flags (libraries w) /\
    device_name_blacklist (libraries w') = device_name_blacklist (libraries w) /\
    program_log_lock (libraries w') = program_log_lock (libraries w) /\
    (target_is_directory (conf w) = true ->
       l = [] /\ r = Returned tt /\ libraries w' = libraries w) /\
    (target_is_directory (conf w) = false ->
       str_in "s390" (available_plugin_names (libraries w)) = true ->
       l = [blockdev_get_available_plugin_names] /\ libraries w' = libraries w) /\
    (s390_plugin_needed w = true ->
       (l = [blockdev_get_available_plugin_names] /\ r <> Returned tt /\
        libraries w' = libraries w) \/
       l = [blockdev_get_available_plugin_names; blockdev_reinit]) /\
    (r = Returned tt \/ exists e t, r = Raised e /\ raises env t = Some e).
Proof.
  intros H. unfold load_plugin_s390, blockdev_reinit_s390 in H. unfold s390_plugin_needed.
  run H.
  all: injection H as <- <-; eexists.
  all: split; [cbn; rewrite <- ?app_assoc; cbn; reflexivity |].
  all: repeat match goal with E : _ = _ |- _ => rewrite E end.
  all: cbn.
  all: repeat split; try discriminate; try reflexivity; eauto 7.
  all: try (intros; discriminate).
  all: try (intros _; left; repeat split; discriminate).
Qed.

(** X1. [load_plugin_s390] re-initialises libblockdev at most once, and only
    when there is a plugin to load: in a directory installation it calls
    nothing in libblockdev and returns; when the plugin is already available
    it only asks for the plugin names; in both cases the state is left as it
    was.  When the plugin is needed, a run that returns has re-initialised
    libblockdev exactly once. *)
Theorem load_plugin_s390_loads_once (env : Env) (w w' : World) (r : Outcome unit) :
  load_plugin_s390 env w = (r, w') ->
  let l := events_since w w' in
  (count is_blockdev_reinit l <= 1)%nat /\
  (s390_plugin_needed w = false ->
     count is_blockdev_reinit l = 0%nat /\ same_state w w') /\
  (target_is_directory (conf w) = true ->
     count is_blockdev l = 0%nat /\ r = Returned tt) /\
  (s390_plugin_needed w = true -> r = Returned tt ->
     count is_blockdev_reinit l = 1%nat).
Proof.
  intros H l. subst l.
  destruct (load_plugin_s390_run _ _ H)
    as (l & Ht & Hc & Ha & Hsv & Hst & _ & _ & _ & Hdir & Hav & Hneed & _).
  rewrite (@events_since_app w w' (enter fn_load_plugin_s390 :: l) Ht).
  unfold s390_plugin_needed in *.
  destruct (target_is_directory (conf w)) eqn:Ed.
  - destruct (Hdir eq_refl) as (-> & -> & Hl).
    repeat split; auto; discriminate.
  - destruct (str_in "s390" (available_plugin_names (libraries w))) eqn:Ein.
    + destruct (Hav eq_refl eq_refl) as (-> & Hl).
      repeat split; auto; discriminate.
    + destruct (Hneed eq_refl) as [(-> & Hr & Hl) | ->];
        repeat split; auto; try discriminate; intros; contradiction.
Qed.

Lemma load_plugin_s390_loads_once_witness :
  let w := sample_world false true [] false EmptyString in
  let w' := snd (load_plugin_s390 quiet w) in
  s390_plugin_needed w = true /\
  load_plugin_s390 quiet w = (Returned tt, w') /\
  count is_blockdev_reinit (events_since w w') = 1%nat.
Proof.
  intros w w'.
  assert (H : load_plugin_s390 quiet w = (Returned tt, w')) by (vm_compute; reflexivity).
  destruct (load_plugin_s390_loads_once quiet w H) as (_ & _ & _ & Hneed).
  split; [reflexivity |]. split; [exact H |]. apply Hneed; reflexivity.
Defined.

(** X2. [enable_installer_mode] assigns Blivet's flags before it calls any
    collaborator: whatever the outcome of the run, the flags are the
    installer's; the flags the function does not name are kept, and the LVM
    metadata backup flag is kept unless the target is an image. *)
Theorem enable_installer_mode_flags_any_outcome
  (env : Env) (w w' : World) (r : Outcome unit) :
  enable_installer_mode env w = (r, w') ->
  let f := blivet_flags (libraries w) in
  let f' := blivet_flags (libraries w') in
  f' = installer_flags (conf w) f /\
  debug f' = true /\
  selinux f' = security_selinux (conf w) /\
  other_flags f' = other_flags f /\
  (target_is_image (conf w) = false -> lvm_metadata_backup f' = lvm_metadata_backup f) /\
  (target_is_image (conf w) = true -> lvm_metadata_backup f' = false).
Proof.
  intros H f f'. subst f f'.
  destruct (enable_installer_mode_run _ _ H) as (_ & Hf & _).
  rewrite Hf. cbn. repeat split; intros ->; reflexivity.
Qed.

Lemma enable_installer_mode_flags_any_outcome_witness :
  let env := {| raises := fun _ => Some (OtherException "RuntimeError" "no platform");
                directive := fun _ _ => 1; scan := fun _ => [] |} in
  let w := sample_world false false [] false EmptyString in
  let w' := snd (enable_installer_mode env w) in
  fst (enable_installer_mode env w) = Raised (OtherException "RuntimeError" "no platform") /\
  debug (blivet_flags (libraries w')) = true /\
  lvm_metadata_backup (blivet_flags (libraries w')) = true.
Proof.
  intros env w w'.
  assert (H : enable_installer_mode env w
              = (Raised (OtherException "RuntimeError" "no platform"), w'))
    by (vm_compute; reflexivity).
  destruct (enable_installer_mode_flags_any_outcome env w H) as (_ & Hd & _ & _ & Hl & _).
  split; [rewrite H; reflexivity |]. split; [exact Hd |]. rewrite (Hl eq_refl). reflexivity.
Defined.

(** The calls of a run of [enable_installer_mode], whatever its outcome. *)
Lemma enable_installer_mode_events (env : Env) (w w' : World) (r : Outcome unit) :
  enable_installer_mode env w = (r, w') ->
  exists l,
    trace w' = trace w ++ platform_update_from_flags :: l /\
    services w' = services w /\ storage w' = storage w /\
    (r = Returned tt ->
       l = removelast l ++ [udev_trigger] /\
       count is_udev_trigger (removelast l) = 0%nat /\
       (arch_is_s390 w = false -> removelast l = [])) /\
    (count is_udev_trigger l <= 1)%nat /\
    (arch_is_s390 w = false -> count is_blockdev l = 0%nat).
Proof.
  intros H. unfold enable_installer_mode, load_plugin_s390, blockdev_reinit_s390 in H.
  run H.
  all: injection H as <- <-; eexists.
  all: split; [cbn; rewrite <- ?app_assoc; cbn; reflexivity |].
  all: split; [reflexivity |]. all: split; [reflexivity |].
  all: split; [try discriminate; intros _; repeat split; try discriminate |].
  all: split; [cbn; lia |].
  all: first [discriminate | intros _; reflexivity].
Qed.

(** X3. The calls of [enable_installer_mode].  A run that returns has called
    [platform.update_from_flags] first and [udev.trigger] last, the latter
    once; on an architecture other than s390 these are its only calls, and no
    run calls libblockdev there.  No run touches the services or the storage
    model. *)
Theorem enable_installer_mode_calls (env : Env) (w w' : World) (r : Outcome unit) :
  enable_installer_mode env w = (r, w') ->
  let l := events_since w w' in
  services w' = services w /\ storage w' = storage w /\
  (count is_udev_trigger l <= 1)%nat /\
  (arch_is_s390 w = false -> count is_blockdev l = 0%nat) /\
  (r = Returned tt ->
     exists mid,
       l = platform_update_from_flags :: mid ++ [udev_trigger] /\
       count is_udev_trigger mid = 0%nat /\
       (arch_is_s390 w = false -> mid = [])).
Proof.
  intros H l. subst l.
  destruct (enable_installer_mode_events _ _ H) as (l & Ht & Hsv & Hst & Hret & Hu & Hb).
  rewrite (@events_since_app w w' (platform_update_from_flags :: l) Ht).
  repeat split; auto.
  intros E. destruct (Hret E) as (Hl & Hm & Ha).
  exists (removelast l). rewrite <- Hl. auto.
Qed.

Lemma enable_installer_mode_calls_witness :
  let w := sample_world false false [] false EmptyString in
  let w' := snd (enable_installer_mode quiet w) in
  events_since w w' = [platform_update_from_flags; udev_trigger].
Proof.
  intros w w'.
  assert (H : enable_installer_mode quiet w = (Returned tt, w')) by (vm_compute; reflexivity).
  destruct (enable_installer_mode_calls quiet w H) as (_ & _ & _ & _ & Hret).
  destruct (Hret eq_refl) as (mid & Hl & _ & Hm).
  rewrite Hl, (Hm eq_refl). reflexivity.
Defined.

Lemma run_modify (f : World -> World) (w : World) : modify f w = (Returned tt, f w).
Proof. reflexivity. Qed.

Lemma assigned_prefix_0 (s : Services) (st : Storage) :
  with_discovery_config (assigned_prefix 0 s (config st)) st = st.
Proof. destruct st as [[] ? ? ? ? ?]. reflexivity. Qed.

(** What a run of [update_storage_config] has done, whatever its outcome:
    [k] attributes are assigned, and the read of the next one has raised
    unless all five are. *)
Lemma update_storage_config_run (env : Env) (w w' : World) (r : Outcome unit) :
  update_storage_config env w = (r, w') ->
  exists k,
    (k <= 5)%nat /\
    storage w'
    = with_discovery_config
        (assigned_prefix k (services w) (config (storage w))) (storage w) /\
    conf w' = conf w /\ arch_is_s390 w' = arch_is_s390 w /\
    libraries w' = libraries w /\ services w' = services w /\
    (r = Returned tt ->
       k = 5%nat /\
       trace w' = trace w ++ enter fn_update_storage_config :: config_reads) /\
    (r <> Returned tt ->
       (k < 5)%nat /\
       trace w' = trace w ++ enter fn_update_storage_config :: firstn (S k) config_reads /\
       exists e, r = Raised e /\ raises env (trace w') = Some e).
Proof.
  intros H. unfold update_storage_config in H.
  run H.
  all: try rewrite run_modify in H.
  all: injection H as <- <-.
  all: first
    [ exists 0%nat; split; [lia |]; split; [symmetry; apply assigned_prefix_0 |]
    | exists 1%nat; split; [lia |]; split; [reflexivity |]
    | exists 2%nat; split; [lia |]; split; [reflexivity |]
    | exists 3%nat; split; [lia |]; split; [reflexivity |]
    | exists 4%nat; split; [lia |]; split; [reflexivity |]
    | exists 5%nat; split; [lia |]; split; [reflexivity |] ].
  all: repeat (split; [reflexivity |]).
  all: split; intros X; try discriminate; try (exfalso; apply X; reflexivity).
  all: split; [first [reflexivity | lia] |].
  all: try (cbn; rewrite <- ?app_assoc; cbn; reflexivity).
  all: split; [cbn; rewrite <- ?app_assoc; cbn; reflexivity |].
  all: eexists; split; [reflexivity |].
  all: assumption.
Qed.

(** X4. [update_storage_config] assigns the five attributes one by one, each
    right after its read, so it is not atomic: in every run some first [k]
    of them carry the values of the disk-initialization service and the others
    keep their values; [k] is five exactly when the run returns, and otherwise
    the read of attribute [k + 1] has raised.  Nothing else of the storage
    model, and nothing of the services, changes. *)
Theorem update_storage_config_assigns_in_order
  (env : Env) (w w' : World) (r : Outcome unit) :
  update_storage_config env w = (r, w') ->
  exists k,
    (k <= 5)%nat /\
    config (storage w') = assigned_prefix k (services w) (config (storage w)) /\
    (r = Returned tt <-> k = 5%nat) /\
    events_since w w' = enter fn_update_storage_config :: firstn (S k) config_reads /\
    ignored_disks (storage w') = ignored_disks (storage w) /\
    exclusive_disks (storage w') = exclusive_disks (storage w) /\
    disks (storage w') = disks (storage w) /\
    default_fstype (storage w') = default_fstype (storage w) /\
    default_boot_fstype (storage w') = default_boot_fstype (storage w) /\
    services w' = services w.
Proof.
  intros H.
  destruct (update_storage_config_run _ _ H)
    as (k & Hk & Hst & _ & _ & _ & Hsv & Hret & Hraise).
  exists k. rewrite Hst. cbn [config ignored_disks exclusive_disks disks default_fstype
                              default_boot_fstype with_discovery_config].
  split; [exact Hk |]. split; [reflexivity |].
  assert (Hdec : r = Returned tt \/ r <> Returned tt)
    by (destruct r as [[] | e |]; [left; reflexivity | right; discriminate ..]).
  split; [| split; [| repeat split; exact Hsv]].
  - split.
    + intros E. now destruct (Hret E).
    + intros E. destruct Hdec as [E' | E']; [exact E' |].
      destruct (Hraise E') as [Hlt _]. lia.
  - destruct Hdec as [E | E].
    + destruct (Hret E) as [-> Ht]. now rewrite (@events_since_app _ _ _ Ht).
    + destruct (Hraise E) as (_ & Ht & _). now rewrite (@events_since_app _ _ _ Ht).
Qed.

Lemma update_storage_config_assigns_in_order_witness :
  let env := failing_property "DevicesToClear" in
  let w := sample_world false false [] false EmptyString in
  let w' := snd (update_storage_config env w) in
  fst (update_storage_config env w) = Raised (OtherException "DBusError" "no reply") /\
  clear_part_type (config (storage w')) = Some 2 /\
  clear_part_disks (config (storage w')) = ["sda"]%string /\
  initialize_disks (config (storage w')) = false.
Proof.
  intros env w w'.
  assert (H : update_storage_config env w
              = (Raised (OtherException "DBusError" "no reply"), w'))
    by (vm_compute; reflexivity).
  destruct (update_storage_config_assigns_in_order env w H) as (k & Hk & Hc & Hr & Hev & _).
  assert (Ek : k = 2%nat).
  { assert (Hlen : List.length (events_since w w')
                   = List.length (enter fn_update_storage_config
                                  :: firstn (S k) config_reads))
      by (rewrite Hev; reflexivity).
    change (List.length (events_since w w')) with 4%nat in Hlen.
    cbn [List.length] in Hlen. rewrite length_firstn in Hlen.
    change (List.length config_reads) with 5%nat in Hlen. lia. }
  subst k. split; [rewrite H; reflexivity |]. rewrite Hc. repeat split.
Defined.

Lemma assigned_prefix_5 (s : Services) (c : StorageDiscoveryConfig) :
  assigned_prefix 5 s c = updated_config s c.
Proof. reflexivity. Qed.

(** X5. [update_storage_config] twice is [update_storage_config] once: a run
    that returns leaves the discovery configuration with the five values of
    the disk-initialization service, whatever it held before, and a second
    run that returns leaves the whole storage model as the first one did. *)
Theorem update_storage_config_idempotent (env : Env) (w w1 w2 : World) :
  update_storage_config env w = (Returned tt, w1) ->
  update_storage_config env w1 = (Returned tt, w2) ->
  config (storage w1) = updated_config (services w) (config (storage w)) /\
  storage w2 = storage w1 /\ services w2 = services w.
Proof.
  intros H1 H2.
  destruct (update_storage_config_run _ _ H1) as (k1 & _ & Hst1 & _ & _ & _ & Hsv1 & Hr1 & _).
  destruct (update_storage_config_run _ _ H2) as (k2 & _ & Hst2 & _ & _ & _ & Hsv2 & Hr2 & _).
  destruct (Hr1 eq_refl) as [-> _]. destruct (Hr2 eq_refl) as [-> _].
  rewrite Hst2, Hsv2, Hsv1, Hst1. repeat split.
Qed.

Lemma update_storage_config_idempotent_witness :
  let w := sample_world false false [] false EmptyString in
  let w1 := snd (update_storage_config quiet w) in
  let w2 := snd (update_storage_config quiet w1) in
  storage w1 <> storage w /\ storage w2 = storage w1.
Proof.
  intros w w1 w2.
  assert (H1 : update_storage_config quiet w = (Returned tt, w1)) by (vm_compute; reflexivity).
  assert (H2 : update_storage_config quiet w1 = (Returned tt, w2)) by (vm_compute; reflexivity).
  destruct (update_storage_config_idempotent quiet w H1 H2) as (_ & Hs & _).
  split; [vm_compute; discriminate | exact Hs].
Defined.

Lemma count_existsb_false (p : call -> bool) (l : list call) :
  existsb p l = false -> count p l = 0%nat.
Proof.
  induction l as [|c l IH]; [reflexivity |].
  cbn [existsb]. rewrite count_cons. destruct (p c); [discriminate |]. exact IH.
Qed.

Lemma reset_calls_primitive (w : World) :
  count is_storage_reset (reset_calls w) = 1%nat /\
  last_call (reset_calls w) = Some (storage_reset (prepared_storage w)) /\
  count is_SetSelectedDisks (reset_calls w) = 0%nat /\
  forall s, In (storage_reset s) (reset_calls w) -> s = prepared_storage w.
Proof.
  unfold reset_calls, reload_calls.
  destruct (target_is_image (conf w)), (arch_is_s390 w);
    (split; [reflexivity |]; split; [reflexivity |]; split; [reflexivity |]);
    intros s; cbn; intuition (try discriminate); congruence.
Qed.

(** X6. One run of the reset operation calls the reset primitive at most
    once, and as its last call, on the prepared model; a run that returns has
    called it.  No run writes a selection to the disk-selection service, and
    no run changes the services or the libraries' settings. *)
Theorem reset_storage_primitive_last (env : Env) (w w' : World) (r : Outcome unit) :
  reset_storage env w = (r, w') ->
  let l := events_since w w' in
  (count is_storage_reset l <= 1)%nat /\
  (count is_storage_reset l = 1%nat ->
     last_call l = Some (storage_reset (prepared_storage w))) /\
  (r = Returned tt -> count is_storage_reset l = 1%nat) /\
  count is_SetSelectedDisks l = 0%nat /\
  services w' = services w /\ libraries w' = libraries w.
Proof.
  intros H l. subst l.
  destruct (reset_storage_events _ _ H) as (rest & Hc & Hp & Hr).
  destruct (reset_storage_run _ _ H) as (_ & _ & _ & _ & _ & _ & Hlib & Hsv & _).
  destruct (reset_calls_primitive w) as (Hn & Hlast & Hset & _).
  rewrite Hc in Hn, Hset. rewrite count_app in Hn, Hset.
  assert (Hfull : count is_storage_reset (events_since w w') = 1%nat ->
                  events_since w w' = reset_calls w).
  { intros E. destruct (existsb is_storage_reset (events_since w w')) eqn:Ex.
    - now rewrite Hc, (Hp eq_refl), app_nil_r.
    - rewrite (count_existsb_false _ _ Ex) in E. discriminate. }
  repeat split; auto; try lia.
  - intros E. rewrite (Hfull E). exact Hlast.
  - intros E. rewrite (Hr E), app_nil_r in Hc. rewrite <- Hc.
    apply (proj1 (reset_calls_primitive w)).
Qed.

Lemma reset_storage_primitive_last_witness :
  let env := flaky 1 1 in
  let w := sample_world false false ["sda"]%string false EmptyString in
  let w' := snd (reset_storage env w) in
  reset_storage env w = (Raised (StorageError "cannot scan"), w') /\
  last_call (events_since w w') = Some (storage_reset (prepared_storage w)) /\
  services w' = services w.
Proof.
  intros env w w'.
  assert (H : reset_storage env w = (Raised (StorageError "cannot scan"), w'))
    by (vm_compute; reflexivity).
  destruct (reset_storage_primitive_last env w H) as (_ & Hlast & _ & _ & Hsv & _).
  split; [exact H |]. split; [apply Hlast; vm_compute; reflexivity | exact Hsv].
Defined.

(** X7. The module reloads on s390.  On a target other than an image, on
    s390, a run of the reset operation that gets as far as the reset primitive
    ends with the iSCSI start-up, the FCoE reload, the zFCP reload and the
    reset primitive, in this order, each called once. *)
Theorem reset_storage_reloads_s390 (env : Env) (w w' : World) (r : Outcome unit) :
  reset_storage env w = (r, w') ->
  target_is_image (conf w) = false ->
  arch_is_s390 w = true ->
  existsb is_storage_reset (events_since w w') = true ->
  let l := events_since w w' in
  l = firstn 9 l
      ++ [iscsi_startup; proxy_ReloadModule FCOE; proxy_ReloadModule ZFCP;
          storage_reset (prepared_storage w)] /\
  count is_iscsi_startup l = 1%nat /\
  count (is_ReloadModule FCOE) l = 1%nat /\
  count (is_ReloadModule ZFCP) l = 1%nat.
Proof.
  intros H Himg Harch Hreach l. subst l.
  destruct (reset_storage_events _ _ H) as (rest & Hc & Hp & _).
  rewrite (Hp Hreach), app_nil_r in Hc. rewrite <- Hc.
  unfold reset_calls, reload_calls. rewrite Himg, Harch. repeat split.
Qed.

Lemma reset_storage_reloads_s390_witness :
  let w := sample_world false true ["sda"]%string false EmptyString in
  let w' := snd (reset_storage quiet w) in
  count (is_ReloadModule ZFCP) (events_since w w') = 1%nat.
Proof.
  intros w w'.
  assert (H : reset_storage quiet w = (Returned tt, w')) by (vm_compute; reflexivity).
  assert (Hreach : existsb is_storage_reset (events_since w w') = true)
    by (vm_compute; reflexivity).
  destruct (reset_storage_reloads_s390 quiet w H eq_refl eq_refl Hreach) as (_ & _ & _ & Hz).
  exact Hz.
Defined.

Lemma last_call_app_some (l1 l2 : list call) (c : call) :
  last_call l2 = Some c -> last_call (l1 ++ l2) = Some c.
Proof.
  unfold last_call. rewrite rev_app_distr.
  destruct (rev l2) as [|x r]; [discriminate |]. intros H. exact H.
Qed.

(** The log of a run of the retry loop: [a] attempts and [h] calls of the
    error handler. *)
Lemma initialize_storage_loop_counts (env : Env) (ER : Z) (fuel : nat) :
  forall (w w' : World) (r : Outcome unit),
    initialize_storage_loop env ER fuel w = (r, w') ->
    exists l,
      trace w' = trace w ++ l /\
      let a := count is_reset_storage l in
      let h := count is_error_handler_cb l in
      (a <= fuel)%nat /\ (h <= a)%nat /\ (a <= h + 1)%nat /\
      (r = Returned tt ->
         a = (h + 1)%nat /\ exists s, last_call l = Some (storage_reset s)) /\
      (r = OutOfFuel -> a = fuel /\ h = fuel) /\
      (forall e, r = Raised e -> a = (h + 1)%nat -> is_StorageError e = false).
Proof.
  induction fuel as [|fuel IH]; intros w w' r H.
  - injection H as <- <-. exists []. split; [now rewrite app_nil_r |].
    cbn. repeat split; auto; discriminate.
  - rewrite initialize_storage_loop_S in H.
    destruct (reset_storage env w) as [[[] | e |] w1] eqn:Hreset;
      destruct (reset_storage_log _ _ Hreset) as (l1 & Ht1 & Hn1 & _ & Hh1).
    + injection H as <- <-. exists l1. split; [exact Ht1 |]. cbn zeta.
      rewrite Hn1, Hh1. repeat split; try lia; try discriminate.
      destruct (reset_storage_events _ _ Hreset) as (rest & Hc & _ & Hr).
      rewrite (Hr eq_refl), app_nil_r, (@events_since_app _ _ _ Ht1) in Hc.
      exists (prepared_storage w). rewrite <- Hc.
      apply (reset_calls_primitive w).
    + destruct (is_StorageError e) eqn:He.
      * unfold bind in H.
        destruct (error_handler_cb_method env e w1) as [[d | e' |] w2] eqn:Hcb;
          destruct (error_handler_cb_method_run _ _ _ Hcb) as [-> Hout2].
        -- destruct (d =? ER).
           ++ injection H as <- <-. exists (l1 ++ [error_handler_cb e]).
              cbn [trace log]. rewrite Ht1, <- app_assoc. split; [reflexivity |].
              cbn zeta. rewrite !count_app, Hn1, Hh1. cbn.
              repeat split; try lia; try discriminate.
           ++ destruct (IH _ _ _ H) as (l2 & Ht2 & Ha & Hha & Hah & Hret & Hout & Hrai).
              exists (l1 ++ error_handler_cb e :: l2).
              rewrite Ht2. cbn [trace log]. rewrite Ht1, <- !app_assoc.
              split; [reflexivity |]. cbn zeta in *.
              rewrite !count_app, !count_cons, Hn1, Hh1. cbn [is_reset_storage
                is_error_handler_cb].
              split; [lia |]. split; [lia |]. split; [lia |]. split; [| split].
              ** intros E. destruct (Hret E) as [Ea [s Hs]]. split; [lia |].
                 exists s. apply last_call_app_some.
                 change (error_handler_cb e :: l2) with ([error_handler_cb e] ++ l2).
                 now apply last_call_app_some.
              ** intros E. destruct (Hout E). split; lia.
              ** intros e0 E Ea. apply (Hrai e0 E). lia.
        -- injection H as <- <-. exists (l1 ++ [error_handler_cb e]).
           cbn [trace log]. rewrite Ht1, <- app_assoc. split; [reflexivity |].
           cbn zeta. rewrite !count_app, Hn1, Hh1. cbn.
           repeat split; try lia; try discriminate.
        -- destruct Hout2 as [X | [? X]]; discriminate.
      * injection H as <- <-. exists l1. split; [exact Ht1 |]. cbn zeta.
        rewrite Hn1, Hh1. repeat split; try lia; try discriminate.
        intros e0 E _. now injection E as <-.
    + destruct (reset_storage_run _ _ Hreset)
        as (? & ? & _ & _ & _ & _ & _ & _ & _ & _ & [X | (? & ? & X & _)]);
        discriminate.
Qed.

(** X8. Attempts and handler calls of the initializer.  In every run the
    reset operation is entered at most [fuel] times, and the error handler is
    called as often as the reset operation is entered or once less.  A run
    that returns has entered the reset operation once more than it called the
    handler; a run that raises after an attempt the handler was not asked
    about raises an exception that is not a storage error; a run that is out
    of fuel has used every attempt and asked the handler after each. *)
Theorem initialize_storage_attempts (env : Env) (ER : Z) (fuel : nat)
  (w w' : World) (r : Outcome unit) :
  initialize_storage env ER fuel w = (r, w') ->
  let a := count is_reset_storage (events_since w w') in
  let h := count is_error_handler_cb (events_since w w') in
  (a <= fuel)%nat /\ (h <= a)%nat /\ (a <= h + 1)%nat /\
  (r = Returned tt -> a = (h + 1)%nat) /\
  (forall e, r = Raised e -> a = (h + 1)%nat -> is_StorageError e = false) /\
  (r = OutOfFuel -> a = fuel /\ h = fuel).
Proof.
  unfold initialize_storage, bind. intros H.
  destruct (storage_shutdown_method env w) as [[[] | e |] w0] eqn:Hs;
    pose proof (storage_shutdown_method_run _ _ Hs) as ->.
  - destruct (initialize_storage_loop_counts _ _ _ _ H)
      as (l & Ht & Ha & Hha & Hah & Hret & Hout & Hrai).
    rewrite (@events_since_app w w' (storage_shutdown :: l))
      by (rewrite Ht; cbn; now rewrite <- app_assoc).
    cbn zeta in *. rewrite !count_cons. cbn [is_reset_storage is_error_handler_cb].
    split; [lia |]. split; [lia |]. split; [lia |].
    split; [intros E; destruct (Hret E); lia |].
    split; [intros e0 E Ea; apply (Hrai e0 E); lia |].
    intros E. destruct (Hout E). split; lia.
  - injection H as <- <-.
    rewrite (@events_since_app w _ [storage_shutdown]) by reflexivity.
    cbn. repeat split; try lia; try discriminate.
  - unfold storage_shutdown_method, invoke in Hs. cbn in Hs.
    destruct (raises env _); discriminate.
Qed.

Lemma initialize_storage_attempts_witness :
  let env := flaky 5 1 in
  let w := sample_world false false ["sda"]%string false EmptyString in
  let w' := snd (initialize_storage env 0 4 w) in
  initialize_storage env 0 4 w = (OutOfFuel, w') /\
  count is_reset_storage (events_since w w') = 4%nat /\
  count is_error_handler_cb (events_since w w') = 4%nat.
Proof.
  intros env w w'.
  assert (H : initialize_storage env 0 4 w = (OutOfFuel, w')) by (vm_compute; reflexivity).
  destruct (initialize_storage_attempts env 0 4 w H) as (_ & _ & _ & _ & _ & Hout).
  split; [exact H |]. exact (Hout eq_refl).
Defined.

(** X9. The initializer returns only after a reset that went through: the
    last call of a run that returns is the reset primitive. *)
Theorem initialize_storage_returns_after_reset (env : Env) (ER : Z) (fuel : nat)
  (w w' : World) :
  initialize_storage env ER fuel w = (Returned tt, w') ->
  exists s, last_call (events_since w w') = Some (storage_reset s) /\
            last_call (trace w') = Some (storage_reset s).
Proof.
  unfold initialize_storage, bind. intros H.
  destruct (storage_shutdown_method env w) as [[[] | e |] w0] eqn:Hs;
    try discriminate.
  pose proof (storage_shutdown_method_run _ _ Hs) as ->.
  destruct (initialize_storage_loop_counts _ _ _ _ H) as (l & Ht & _ & _ & _ & Hret & _).
  destruct (Hret eq_refl) as [_ [s Hs']]. exists s.
  rewrite (@events_since_app w w' (storage_shutdown :: l))
    by (rewrite Ht; cbn; now rewrite <- app_assoc).
  split.
  - change (storage_shutdown :: l) with ([storage_shutdown] ++ l).
    now apply last_call_app_some.
  - rewrite Ht. now apply last_call_app_some.
Qed.

Lemma initialize_storage_returns_after_reset_witness :
  let env := flaky 1 1 in
  let w := sample_world false false ["sda"]%string false EmptyString in
  let w' := snd (initialize_storage env 0 2 w) in
  exists s, last_call (trace w') = Some (storage_reset s).
Proof.
  intros env w w'.
  assert (H : initialize_storage env 0 2 w = (Returned tt, w')) by (vm_compute; reflexivity).
  destruct (initialize_storage_returns_after_reset env 0 2 w H) as (s & _ & Hs).
  exists s. exact Hs.
Defined.

Lemma reset_calls_handles (w : World) :
  forallb handles_storage_error (reset_calls w) = true.
Proof.
  unfold reset_calls, reload_calls.
  destruct (target_is_image (conf w)), (arch_is_s390 w); reflexivity.
Qed.

Lemma initialize_storage_loop_handles (env : Env) (ER : Z) (fuel : nat) :
  forall (w w' : World) (r : Outcome unit),
    initialize_storage_loop env ER fuel w = (r, w') ->
    forallb handles_storage_error (events_since w w') = true.
Proof.
  induction fuel as [|fuel IH]; intros w w' r H.
  - injection H as <- <-. rewrite (@events_since_app w w []); [reflexivity |].
    now rewrite app_nil_r.
  - rewrite initialize_storage_loop_S in H.
    destruct (reset_storage env w) as [[[] | e |] w1] eqn:Hreset;
      destruct (reset_storage_events _ _ Hreset) as (rest & Hc & _);
      pose proof (reset_calls_handles w) as Hall;
      rewrite Hc, forallb_app in Hall; apply andb_prop in Hall; destruct Hall as [Hall _].
    + injection H as <- <-. exact Hall.
    + destruct (reset_storage_log _ _ Hreset) as (l1 & Ht1 & _).
      rewrite (@events_since_app _ _ _ Ht1) in Hall.
      destruct (is_StorageError e) eqn:He.
      * unfold bind in H.
        destruct (error_handler_cb_method env e w1) as [[d | e' |] w2] eqn:Hcb;
          destruct (error_handler_cb_method_run _ _ _ Hcb) as [-> _].
        -- destruct (d =? ER).
           ++ injection H as <- <-.
              rewrite (@events_since_app w _ (l1 ++ [error_handler_cb e]))
                by (cbn; now rewrite Ht1, <- app_assoc).
              rewrite forallb_app, Hall. cbn. now rewrite He.
           ++ pose proof (IH _ _ _ H) as Hrec.
              destruct (initialize_storage_loop_counts _ _ _ _ H) as (l2 & Ht2 & _).
              rewrite (@events_since_app _ _ _ Ht2) in Hrec.
              rewrite (@events_since_app w w' (l1 ++ error_handler_cb e :: l2))
                by (rewrite Ht2; cbn; now rewrite Ht1, <- !app_assoc).
              rewrite forallb_app, Hall. cbn. now rewrite He.
        -- injection H as <- <-.
           rewrite (@events_since_app w _ (l1 ++ [error_handler_cb e]))
             by (cbn; now rewrite Ht1, <- app_assoc).
           rewrite forallb_app, Hall. cbn. now rewrite He.
        -- injection H as <- <-.
           rewrite (@events_since_app w _ (l1 ++ [error_handler_cb e]))
             by (cbn; now rewrite Ht1, <- app_assoc).
           rewrite forallb_app, Hall. cbn. now rewrite He.
      * injection H as <- <-. now rewrite (@events_since_app _ _ _ Ht1).
    + injection H as <- <-. exact Hall.
Qed.

(** X10. The error handler is asked about storage errors of the reset
    operation only.  In every run of the initializer each call of the handler
    is on a storage error; an exception raised by the shutdown, a storage
    error included, leaves the initializer at once: the shutdown is then the
    only call of the run. *)
Theorem initialize_storage_handler_scope (env : Env) (ER : Z) (fuel : nat)
  (w w' : World) (r : Outcome unit) :
  initialize_storage env ER fuel w = (r, w') ->
  forallb handles_storage_error (events_since w w') = true /\
  (forall e, raises env (trace w ++ [storage_shutdown]) = Some e ->
     r = Raised e /\ events_since w w' = [storage_shutdown]).
Proof.
  unfold initialize_storage, bind. intros H.
  destruct (storage_shutdown_method env w) as [[[] | e |] w0] eqn:Hs;
    pose proof (storage_shutdown_method_run _ _ Hs) as ->;
    unfold storage_shutdown_method, invoke in Hs; cbn in Hs;
    destruct (raises env (trace w ++ [storage_shutdown])) as [e1 |] eqn:Hr;
    try discriminate.
  - pose proof (initialize_storage_loop_handles _ _ _ _ H) as Hall.
    destruct (initialize_storage_loop_counts _ _ _ _ H) as (l & Ht & _).
    rewrite (@events_since_app _ _ _ Ht) in Hall.
    rewrite (@events_since_app w w' (storage_shutdown :: l))
      by (rewrite Ht; cbn; now rewrite <- app_assoc).
    split; [exact Hall | discriminate].
  - injection H as <- <-. injection Hs as <-.
    rewrite (@events_since_app w _ [storage_shutdown]) by reflexivity.
    split; [reflexivity |]. intros e0 E. injection E as <-. split; reflexivity.
Qed.

Lemma initialize_storage_handler_scope_witness :
  let env := {| raises := fun _ => Some (StorageError "busy");
                directive := fun _ _ => 1; scan := fun _ => [] |} in
  let w := sample_world false false ["sda"]%string false EmptyString in
  let w' := snd (initialize_storage env 0 3 w) in
  fst (initialize_storage env 0 3 w) = Raised (StorageError "busy") /\
  events_since w w' = [storage_shutdown].
Proof.
  intros env w w'.
  assert (H : initialize_storage env 0 3 w
              = (fst (initialize_storage env 0 3 w), w')) by (vm_compute; reflexivity).
  destruct (initialize_storage_handler_scope env 0 3 w H) as [_ Hshut].
  exact (Hshut (StorageError "busy") eq_refl).
Defined.

(** X11. An exception raised by the error handler itself replaces the storage
    error it was asked about: at any attempt, when the reset operation raises
    a storage error and the handler raises in turn, the loop raises the
    handler's exception right after the handler call, with no other attempt. *)
Theorem initialize_storage_handler_raises
  (env : Env) (ER : Z) (fuel : nat) (w w1 w2 : World) (e e' : exn) :
  reset_storage env w = (Raised e, w1) ->
  is_StorageError e = true ->
  error_handler_cb_method env e w1 = (Raised e', w2) ->
  initialize_storage_loop env ER (S fuel) w = (Raised e', w2) /\
  events_since w1 w2 = [error_handler_cb e] /\
  count is_reset_storage (events_since w w2) = 1%nat.
Proof.
  intros Hr He Hc.
  destruct (error_handler_cb_method_run _ _ _ Hc) as [E _].
  destruct (reset_storage_log _ _ Hr) as (l1 & Ht1 & Hn1 & _).
  split; [| split].
  - rewrite initialize_storage_loop_S, Hr, He. unfold bind. now rewrite Hc.
  - subst w2. apply events_since_app. reflexivity.
  - rewrite (@events_since_app w w2 (l1 ++ [error_handler_cb e]))
      by (subst w2; cbn; now rewrite Ht1, <- app_assoc).
    rewrite count_app, Hn1. reflexivity.
Qed.

Lemma initialize_storage_handler_raises_witness :
  let env := raising_handler in
  let w := sample_world false false ["sda"]%string false EmptyString in
  let w2 := snd (initialize_storage_loop env 0 3 w) in
  initialize_storage_loop env 0 3 w
  = (Raised (OtherException "RuntimeError" "no handler"), w2) /\
  count is_reset_storage (events_since w w2) = 1%nat.
Proof.
  intros env w w2.
  set (w1 := snd (reset_storage env w)).
  assert (Hr : reset_storage env w = (Raised (StorageError "cannot scan"), w1))
    by (vm_compute; reflexivity).
  assert (Hc : error_handler_cb_method env (StorageError "cannot scan") w1
               = (Raised (OtherException "RuntimeError" "no handler"), w2))
    by (vm_compute; reflexivity).
  destruct (@initialize_storage_handler_raises env 0 2 w w1 w2 _ _ Hr eq_refl Hc)
    as (Hl & _ & Hn).
  split; [exact Hl | exact Hn].
Defined.

(** The exception a run of the reset operation raises is the one its last
    call raised, and the last call of a run that returns did not raise. *)
Lemma reset_storage_raise_site (env : Env) (w w' : World) (r : Outcome unit) :
  reset_storage env w = (r, w') ->
  (forall e, r = Raised e -> raises env (trace w') = Some e) /\
  (r = Returned tt -> raises env (trace w') = None).
Proof.
  intros H. unfold reset_storage, update_storage_config in H.
  run H.
  all: try rewrite run_storage_reset_method in H.
  all: run H.
  all: injection H as <- <-.
  all: split; [intros e0 E; try discriminate; injection E as <-; assumption |].
  all: intros E; try discriminate; assumption.
Qed.

Lemma last_call_snoc (t : list call) (c : call) : last_call (t ++ [c]) = Some c.
Proof. unfold last_call. now rewrite rev_app_distr. Qed.

Lemma last_call_In (l : list call) (x : call) : last_call l = Some x -> In x l.
Proof.
  unfold last_call. intros H. apply in_rev.
  destruct (rev l) as [|y r]; [discriminate |]. injection H as ->. now left.
Qed.

Lemma last_call_app_cons (t l : list call) (c x : call) :
  last_call (t ++ c :: l) = Some x -> In x (c :: l).
Proof.
  intros H. apply last_call_In.
  unfold last_call in *. rewrite rev_app_distr in H.
  destruct (rev (c :: l)) as [|y r] eqn:E; [| exact H].
  apply (f_equal (@List.length call)) in E. rewrite length_rev in E. discriminate.
Qed.

Lemma reset_calls_snoc (w : World) :
  exists pre,
    reset_calls w = pre ++ [storage_reset (prepared_storage w)] /\
    count is_storage_reset pre = 0%nat.
Proof.
  unfold reset_calls. eexists. rewrite app_assoc. split; [reflexivity |].
  unfold reload_calls. destruct (target_is_image (conf w)), (arch_is_s390 w); reflexivity.
Qed.

(** With collaborators of which only the reset primitive may raise, a run of
    the reset operation makes all its calls. *)
Lemma reset_storage_only_reset (env : Env) (w w' : World) (r : Outcome unit) :
  only_reset_raises env ->
  reset_storage env w = (r, w') ->
  trace w' = trace w ++ reset_calls w.
Proof.
  intros Hq H.
  destruct (reset_storage_run _ _ H)
    as (l & rest & Ht & Hc & _ & _ & _ & _ & Hret & Hp & Hprov).
  destruct (reset_storage_raise_site _ _ H) as [Hsite _].
  assert (Hrest : rest = []).
  { destruct Hprov as [E | (e & t & E & _)].
    - now destruct (Hret E).
    - destruct (Hq _ _ (Hsite e E)) as [s Hs]. rewrite Ht in Hs.
      apply last_call_app_cons in Hs. destruct Hs as [Hs | Hs]; [discriminate |].
      apply Hp. apply existsb_exists. exists (storage_reset s). split; [exact Hs | reflexivity]. }
  rewrite Hrest, app_nil_r in Hc. now rewrite Ht, Hc.
Qed.

Lemma flaky_raises (n : nat) (d : Z) (t : list call) (c : call) :
  raises (flaky n d) (t ++ [c])
  = if is_storage_reset c
    then (if (count is_storage_reset t + 1 <=? n)%nat
          then Some (StorageError "cannot scan") else None)
    else None.
Proof.
  cbn [raises flaky]. rewrite last_call_snoc, count_app.
  destruct c; reflexivity.
Qed.

Lemma flaky_only_reset (n : nat) (d : Z) : only_reset_raises (flaky n d).
Proof.
  intros t e. cbn [raises flaky].
  destruct (last_call t) as [[] |]; try discriminate. eauto.
Qed.

(** The outcome of a run of the reset operation with [flaky n d]. *)
Lemma reset_storage_flaky (n : nat) (d : Z) (w w' : World) (r : Outcome unit) :
  reset_storage (flaky n d) w = (r, w') ->
  trace w' = trace w ++ reset_calls w /\
  r = if (count is_storage_reset (trace w) + 1 <=? n)%nat
      then Raised (StorageError "cannot scan") else Returned tt.
Proof.
  intros H.
  pose proof (@reset_storage_only_reset _ _ _ _ (flaky_only_reset n d) H) as Ht.
  split; [exact Ht |].
  destruct (reset_storage_raise_site _ _ H) as [Hsite Hok].
  destruct (reset_calls_snoc w) as (pre & Hpre & Hn).
  assert (Hr : raises (flaky n d) (trace w')
               = if (count is_storage_reset (trace w) + 1 <=? n)%nat
                 then Some (StorageError "cannot scan") else None).
  { rewrite Ht, Hpre, app_assoc, flaky_raises, count_app, Hn, Nat.add_0_r.
    reflexivity. }
  destruct (reset_storage_run _ _ H)
    as (_ & _ & _ & _ & _ & _ & _ & _ & _ & _ & [-> | (e & t & -> & _)]).
  - rewrite (Hok eq_refl) in Hr.
    destruct (count is_storage_reset (trace w) + 1 <=? n)%nat; [discriminate | reflexivity].
  - rewrite (Hsite e eq_refl) in Hr.
    destruct (count is_storage_reset (trace w) + 1 <=? n)%nat; [| discriminate].
    now injection Hr as ->.
Qed.

Lemma initialize_storage_loop_flaky (n : nat) (d ER : Z) (extra : nat) :
  d <> ER ->
  forall (m : nat) (w : World),
    (count is_storage_reset (trace w) + m = n)%nat ->
    exists w' l,
      initialize_storage_loop (flaky n d) ER (S m + extra) w = (Returned tt, w') /\
      trace w' = trace w ++ l /\
      count is_reset_storage l = S m /\
      count is_error_handler_cb l = m.
Proof.
  intros Hd. induction m as [|m IH]; intros w Hk.
  - destruct (reset_storage (flaky n d) w) as [r w1] eqn:H.
    destruct (reset_storage_flaky _ _ _ H) as [_ Hr].
    destruct (reset_storage_log _ _ H) as (l1 & Ht1 & Hn1 & _ & Hh1).
    replace (count is_storage_reset (trace w) + 1 <=? n)%nat with false in Hr
      by (symmetry; apply Nat.leb_gt; lia).
    subst r. exists w1, l1. cbn [plus]. rewrite initialize_storage_loop_S, H. auto.
  - destruct (reset_storage (flaky n d) w) as [r w1] eqn:H.
    destruct (reset_storage_flaky _ _ _ H) as [Ht Hr].
    destruct (reset_storage_log _ _ H) as (l1 & Ht1 & Hn1 & _ & Hh1).
    replace (count is_storage_reset (trace w) + 1 <=? n)%nat with true in Hr
      by (symmetry; apply Nat.leb_le; lia).
    subst r.
    set (e := StorageError "cannot scan") in *.
    set (w2 := log (error_handler_cb e) w1).
    assert (Hcb : error_handler_cb_method (flaky n d) e w1 = (Returned d, w2)).
    { unfold error_handler_cb_method, bind, invoke, gets.
      cbn [trace log]. now rewrite flaky_raises. }
    destruct (IH w2) as (w' & l2 & Hl & Ht2 & Hn2 & Hh2).
    { subst w2. cbn [trace log]. rewrite Ht, !count_app.
      destruct (reset_calls_primitive w) as [Hc _]. rewrite Hc. cbn. lia. }
    exists w', (l1 ++ error_handler_cb e :: l2).
    change (S (S m) + extra)%nat with (S (S m + extra)).
    rewrite initialize_storage_loop_S, H. cbn [is_StorageError e]. unfold bind.
    rewrite Hcb. apply Z.eqb_neq in Hd. rewrite Hd. split; [exact Hl |].
    rewrite Ht2. subst w2. cbn [trace log]. rewrite Ht1, <- !app_assoc.
    split; [reflexivity |].
    rewrite !count_app, !count_cons, Hn1, Hh1, Hn2, Hh2. cbn. split; lia.
Qed.

(** X12. The retry loop has no cap of its own.  For every [n], with
    collaborators whose reset primitive fails the first [n] times and whose
    error handler never answers [ERROR_RAISE], the initializer enters the
    reset operation [n + 1] times, asks the handler [n] times and returns;
    the number of attempts is bounded by nothing but the fuel. *)
Theorem initialize_storage_no_retry_cap (n : nat) (d ER : Z) (extra : nat) (w : World) :
  d <> ER ->
  count is_storage_reset (trace w) = 0%nat ->
  exists w',
    initialize_storage (flaky n d) ER (S n + extra) w = (Returned tt, w') /\
    count is_reset_storage (events_since w w') = S n /\
    count is_error_handler_cb (events_since w w') = n.
Proof.
  intros Hd H0.
  set (w0 := log storage_shutdown w).
  destruct (@initialize_storage_loop_flaky n d ER extra Hd n w0)
    as (w' & l & Hl & Ht & Hn & Hh).
  { subst w0. cbn [trace log]. rewrite count_app, H0. reflexivity. }
  exists w'. split.
  - unfold initialize_storage, bind, storage_shutdown_method, invoke.
    cbn [trace log]. rewrite flaky_raises. cbn [is_storage_reset]. exact Hl.
  - rewrite (@events_since_app w w' (storage_shutdown :: l))
      by (rewrite Ht; subst w0; cbn; now rewrite <- app_assoc).
    rewrite !count_cons, Hn, Hh. cbn. split; reflexivity.
Qed.

Lemma initialize_storage_no_retry_cap_witness :
  let w := sample_world false false ["sda"]%string false EmptyString in
  exists w',
    initialize_storage (flaky 7 1) 0 8 w = (Returned tt, w') /\
    count is_reset_storage (events_since w w') = 8%nat /\
    count is_error_handler_cb (events_since w w') = 7%nat.
Proof.
  intros w.
  assert (Hd : 1 <> 0) by discriminate.
  exact (@initialize_storage_no_retry_cap 7 1 0 0 w Hd eq_refl).
Defined.

Lemma unignored_not_ignored (ds : list Disk) (ignored : list string) (d : string) :
  In d (unignored_disk_names ds ignored) ->
  ~ In d ignored /\ exists x, In x ds /\ name x = d.
Proof.
  unfold unignored_disk_names. intros H. apply in_map_iff in H.
  destruct H as (x & <- & Hx). apply filter_In in Hx. destruct Hx as [Hin Hf].
  split; [| eauto].
  destruct (in_dec string_dec (name x) ignored); [discriminate | assumption].
Qed.

(** X13. A computed selection settles the auto-selector.  When the service
    holds no selection and a call computes a non-empty one, a second call
    returns the same list, writes nothing and changes nothing: over the two
    calls the service is written once. *)
Theorem select_all_disks_by_default_twice
  (env : Env) (w w1 w2 : World) (l l2 : list string) :
  SelectedDisks (disk_selection (services w)) = [] ->
  select_all_disks_by_default env w = (Returned l, w1) ->
  l <> [] ->
  select_all_disks_by_default env w1 = (Returned l2, w2) ->
  l2 = l /\ same_state w1 w2 /\
  filter is_SetSelectedDisks (events_since w w2) = [proxy_SetSelectedDisks l].
Proof.
  intros Hsel H1 Hl H2.
  destruct (select_all_disks_by_default_run _ _ H1) as [(_ & _ & Hw1) | (E & _)];
    [| contradiction].
  destruct (select_all_disks_by_default_run _ _ H2) as [(E2 & _) | (_ & Hl2 & Hw2)].
  - subst w1. cbn in E2. contradiction.
  - split; [subst w1; exact Hl2 |]. split; [subst w2; repeat split |].
    subst w2 w1. now events.
Qed.

Lemma select_all_disks_by_default_twice_witness :
  let w := sample_world false false [] false EmptyString in
  let w1 := snd (select_all_disks_by_default quiet w) in
  let w2 := snd (select_all_disks_by_default quiet w1) in
  select_all_disks_by_default quiet w1 = (Returned ["sda"; "sdc"]%string, w2) /\
  filter is_SetSelectedDisks (events_since w w2)
  = [proxy_SetSelectedDisks ["sda"; "sdc"]%string].
Proof.
  intros w w1 w2.
  assert (H1 : select_all_disks_by_default quiet w
               = (Returned ["sda"; "sdc"]%string, w1)) by reflexivity.
  assert (H2 : select_all_disks_by_default quiet w1
               = (Returned ["sda"; "sdc"]%string, w2)) by reflexivity.
  assert (Hne : ["sda"; "sdc"]%string <> []) by discriminate.
  destruct (@select_all_disks_by_default_twice quiet w w1 w2 _ _ eq_refl H1 Hne H2)
    as (_ & _ & Hev).
  split; [exact H2 | exact Hev].
Defined.

(** X14. With nothing to select the auto-selector never settles.  When the
    service holds no selection and every discovered disk is ignored (or there
    is none), a call that returns has written the empty list and returns it,
    the service still holds no selection, and every further call that returns
    writes the empty list again. *)
Theorem select_all_disks_by_default_nothing_selectable
  (env : Env) (w w1 : World) (l : list string) :
  SelectedDisks (disk_selection (services w)) = [] ->
  unignored_disk_names (disks (storage w))
    (IgnoredDisks (disk_selection (services w))) = [] ->
  select_all_disks_by_default env w = (Returned l, w1) ->
  l = [] /\
  SelectedDisks (disk_selection (services w1)) = [] /\
  filter is_SetSelectedDisks (events_since w w1) = [proxy_SetSelectedDisks []] /\
  forall l2 w2,
    select_all_disks_by_default env w1 = (Returned l2, w2) ->
    l2 = [] /\
    filter is_SetSelectedDisks (events_since w1 w2) = [proxy_SetSelectedDisks []].
Proof.
  intros Hsel Hnone H1.
  destruct (select_all_disks_by_default_run _ _ H1) as [(_ & Hl & Hw1) | (E & _)];
    [| contradiction].
  rewrite filter_not_ignored, Hnone in Hl. subst l.
  split; [reflexivity |]. split; [subst w1; reflexivity |].
  split; [subst w1; now events |].
  intros l2 w2 H2.
  destruct (select_all_disks_by_default_run _ _ H2) as [(_ & Hl2 & Hw2) | (E2 & _)].
  - rewrite filter_not_ignored in Hl2.
    assert (E : unignored_disk_names (disks (storage w1))
                  (IgnoredDisks (disk_selection (services w1))) = [])
      by (subst w1; exact Hnone).
    rewrite E in Hl2. subst l2. split; [reflexivity |]. subst w2. now events.
  - subst w1. cbn in E2. contradiction.
Qed.

Lemma select_all_disks_by_default_nothing_selectable_witness :
  let w := with_storage (set_disks [ {| name := "sdb" |} ])
             (sample_world false false [] false EmptyString) in
  let w1 := snd (select_all_disks_by_default quiet w) in
  let w2 := snd (select_all_disks_by_default quiet w1) in
  select_all_disks_by_default quiet w = (Returned [], w1) /\
  filter is_SetSelectedDisks (events_since w1 w2) = [proxy_SetSelectedDisks []].
Proof.
  intros w w1 w2.
  assert (H1 : select_all_disks_by_default quiet w = (Returned [], w1)) by reflexivity.
  assert (H2 : select_all_disks_by_default quiet w1 = (Returned [], w2)) by reflexivity.
  destruct (@select_all_disks_by_default_nothing_selectable quiet w w1 _ eq_refl eq_refl H1)
    as (_ & _ & _ & Hnext).
  split; [exact H1 |]. exact (proj2 (Hnext _ _ H2)).
Defined.

(** X15. The auto-selector followed by a reset.  When the service holds no
    selection, the auto-selector returns [l] and a run of the reset operation
    follows that calls the reset primitive, the model the primitive is called
    on has [l] as its exclusive disks and the service's ignored disks as its
    ignored disks; no disk is in both lists, and every exclusive disk is a
    discovered disk. *)
Theorem select_then_reset_storage
  (env : Env) (w w1 w2 : World) (l : list string) (r : Outcome unit) (s : Storage) :
  SelectedDisks (disk_selection (services w)) = [] ->
  select_all_disks_by_default env w = (Returned l, w1) ->
  reset_storage env w1 = (r, w2) ->
  In (storage_reset s) (events_since w1 w2) ->
  exclusive_disks s = l /\
  ignored_disks s = IgnoredDisks (disk_selection (services w)) /\
  (forall d, In d (exclusive_disks s) -> ~ In d (ignored_disks s)) /\
  (forall d, In d (exclusive_disks s) -> exists x, In x (disks (storage w)) /\ name x = d).
Proof.
  intros Hsel H1 H2 Hin.
  destruct (select_all_disks_by_default_run _ _ H1) as [(_ & Hl & Hw1) | (E & _)];
    [| contradiction].
  destruct (reset_storage_events _ _ H2) as (rest & Hc & _).
  assert (Hs : s = prepared_storage w1).
  { apply (reset_calls_primitive w1). rewrite Hc. apply in_or_app. now left. }
  rewrite filter_not_ignored in Hl.
  assert (He : exclusive_disks s = l) by (subst s w1; reflexivity).
  assert (Hi : ignored_disks s = IgnoredDisks (disk_selection (services w)))
    by (subst s w1; reflexivity).
  rewrite He, Hi. split; [reflexivity |]. split; [reflexivity |].
  split; intros d Hd; rewrite Hl in Hd; now apply unignored_not_ignored in Hd.
Qed.

Lemma select_then_reset_storage_witness :
  let w := sample_world false false [] false EmptyString in
  let w1 := snd (select_all_disks_by_default quiet w) in
  let w2 := snd (reset_storage quiet w1) in
  In (storage_reset (prepared_storage w1)) (events_since w1 w2) /\
  exclusive_disks (prepared_storage w1) = ["sda"; "sdc"]%string /\
  ignored_disks (prepared_storage w1) = ["sdb"]%string.
Proof.
  intros w w1 w2.
  assert (H1 : select_all_disks_by_default quiet w
               = (Returned ["sda"; "sdc"]%string, w1)) by reflexivity.
  assert (H2 : reset_storage quiet w1 = (Returned tt, w2)) by (vm_compute; reflexivity).
  assert (Hin : In (storage_reset (prepared_storage w1)) (events_since w1 w2)).
  { vm_compute. do 11 right. left. reflexivity. }
  destruct (@select_then_reset_storage quiet w w1 w2 _ _ _ eq_refl H1 H2 Hin)
    as (He & Hi & _).
  split; [exact Hin |]. split; [exact He | exact Hi].
Defined.

(** What a run of the kickstart default applier has done to the model,
    whatever its outcome; [t] is the filesystem type of the service. *)
Lemma set_storage_defaults_from_kickstart_steps
  (env : Env) (w w' : World) (r : Outcome unit) :
  set_storage_defaults_from_kickstart env w = (r, w') ->
  let ap := auto_partitioning (services w) in
  let t := FilesystemType ap in
  services w' = services w /\ libraries w' = libraries w /\
  (storage w' = storage w \/
   Enabled ap && str_truthy t = true /\
   (storage w' = set_default_fstype t (storage w) /\ r <> Returned tt \/
    storage w' = set_default_boot_fstype t (set_default_fstype t (storage w)))).
Proof.
  intros H ap t.
  unfold set_storage_defaults_from_kickstart, get_property,
    storage_set_default_fstype_method, storage_set_default_boot_fstype_method,
    bind, invoke, gets, modify, ret in H.
  exec H; try (injection H as <- <-; cbn; auto).
  fold ap in H. fold t in H.
  destruct (Enabled ap && str_truthy t) eqn:E; cbn in H; exec H;
    injection H as <- <-; cbn; repeat split; auto.
  right. split; [reflexivity |]. left. split; [reflexivity | discriminate].
Qed.

(** X16. The kickstart default applier touches the two defaults only, and
    the default-boot type only together with the default type.  In every run,
    whatever its outcome, the services and the rest of the storage model are
    left as they were; a default that has changed is now the filesystem type
    of the service, which is then enabled and not empty; and when the
    default-boot type has changed, the default type carries the same value. *)
Theorem set_storage_defaults_from_kickstart_touches_defaults_only
  (env : Env) (w w' : World) (r : Outcome unit) :
  set_storage_defaults_from_kickstart env w = (r, w') ->
  let ap := auto_partitioning (services w) in
  let t := FilesystemType ap in
  services w' = services w /\
  config (storage w') = config (storage w) /\
  ignored_disks (storage w') = ignored_disks (storage w) /\
  exclusive_disks (storage w') = exclusive_disks (storage w) /\
  disks (storage w') = disks (storage w) /\
  (default_fstype (storage w') <> default_fstype (storage w) ->
     default_fstype (storage w') = t /\ Enabled ap = true /\ t <> EmptyString) /\
  (default_boot_fstype (storage w') <> default_boot_fstype (storage w) ->
     default_boot_fstype (storage w') = t /\ default_fstype (storage w') = t).
Proof.
  intros H ap t.
  destruct (set_storage_defaults_from_kickstart_steps _ _ H) as (Hsv & _ & Hst).
  fold ap in Hst. fold t in Hst.
  split; [exact Hsv |].
  assert (Hon : Enabled ap && str_truthy t = true -> Enabled ap = true /\ t <> EmptyString).
  { intros E. apply andb_prop in E. destruct E as [E1 E2].
    split; [exact E1 | now apply str_truthy_nonempty]. }
  destruct Hst as [-> | [E [[-> _] | ->]]]; cbn.
  - repeat (split; [reflexivity |]).
    split; intros X; exfalso; apply X; reflexivity.
  - repeat (split; [reflexivity |]). split.
    + intros _. destruct (Hon E). auto.
    + intros X. exfalso. apply X. reflexivity.
  - repeat (split; [reflexivity |]). split.
    + intros _. destruct (Hon E). auto.
    + intros _. auto.
Qed.

Lemma set_storage_defaults_from_kickstart_touches_defaults_only_witness :
  let env := {| raises := fun t =>
                  match last_call t with
                  | Some (storage_set_default_boot_fstype _) =>
                      Some (OtherException "ValueError" "not a filesystem type")
                  | _ => None
                  end;
                directive := fun _ _ => 1; scan := fun _ => [] |} in
  let w := sample_world false false [] true "ext4" in
  let w' := snd (set_storage_defaults_from_kickstart env w) in
  fst (set_storage_defaults_from_kickstart env w)
  = Raised (OtherException "ValueError" "not a filesystem type") /\
  default_fstype (storage w') = "ext4"%string /\
  default_boot_fstype (storage w') = "xfs"%string /\
  disks (storage w') = disks (storage w).
Proof.
  intros env w w'.
  assert (H : set_storage_defaults_from_kickstart env w
              = (Raised (OtherException "ValueError" "not a filesystem type"), w'))
    by (vm_compute; reflexivity).
  destruct (set_storage_defaults_from_kickstart_touches_defaults_only env w H)
    as (_ & _ & _ & _ & Hd & Hdef & _).
  split; [rewrite H; reflexivity |].
  assert (Hne : default_fstype (storage w') <> default_fstype (storage w))
    by (vm_compute; discriminate).
  destruct (Hdef Hne) as (Ht & _).
  split; [exact Ht |]. split; [reflexivity | exact Hd].
Defined.
